(** * RoIHeads: the region-of-interest stage of Mask R-CNN

    A shallow embedding of
    [inst_model/Mask_RCNN/net/RegionOfInterest/RoIHeads.py] and the
    properties of its three methods: [select_training_samples], [detect]
    and [forward].

    Tensors are kept as the code uses them: a device tag and the rows along
    the first dimension.  Floating-point values stay abstract (a type [F]
    with the comparison the code applies to it); every Python exception is
    the result [None].

    The device of a result is the device torch gives it: that of the
    indexed tensor for an index expression, that of the first operand for
    [torch.cat], the [device=] argument of a factory call and the default
    device without one.  An index tensor must be on the cpu or on the
    device of the tensor it indexes, and the two operands of
    [torch.cat((a, b))] on one device: anything else is a [RuntimeError].
    The check is not repeated for boolean masks, for [torch.cat] of a list
    and for the two-index lookup of [forward]. *)

From Stdlib Require Import ZArith QArith Qround Qabs Qminmax Lia.
From stdpp Require Import base option list strings gmap sorting.

Local Open Scope string_scope.
Local Open Scope Z_scope.
Local Open Scope nat_scope.
Local Open Scope list_scope.

(** ** Tensors *)

Inductive Device := cpu | cuda (n : nat).

#[global] Instance Device_eq_dec : EqDecision Device.
Proof. solve_decision. Defined.

(** A tensor seen along its first dimension: [data] holds one entry per
    row, whatever a row is (a scalar, a box, a per-class list, ...). *)
Record tensor (A : Type) := Tensor { device : Device; data : list A }.
Arguments Tensor {A} _ _.
Arguments device {A} _.
Arguments data {A} _.

(** A two-dimensional tensor keeps its second extent next to the rows, so
    that [shape] is known when there is no row. *)
Record tensor2 (A : Type) :=
  Tensor2 { device2 : Device; ncols : nat; rows : list (list A) }.
Arguments Tensor2 {A} _ _ _.
Arguments device2 {A} _.
Arguments ncols {A} _.
Arguments rows {A} _.

(** A stack of two-dimensional maps, shape [(length maps, height, width)]. *)
Record tensor3 (A : Type) :=
  Tensor3 { device3 : Device; height : nat; width : nat; maps : list A }.
Arguments Tensor3 {A} _ _ _ _.
Arguments device3 {A} _.
Arguments height {A} _.
Arguments width {A} _.
Arguments maps {A} _.

Definition shape3 {A} (t : tensor3 A) : nat * nat * nat :=
  (length (maps t), height t, width t).

(** A stack of per-class maps, shape [(N, C, height, width)]. *)
Record tensor4 (A : Type) :=
  Tensor4 { device4 : Device; height4 : nat; width4 : nat;
            maps4 : list (list A) }.
Arguments Tensor4 {A} _ _ _ _.
Arguments device4 {A} _.
Arguments height4 {A} _.
Arguments width4 {A} _.
Arguments maps4 {A} _.

(** Zero-dimensional tensors: [torch.tensor(0)] holds an integer, a loss a
    float. *)
Inductive scalar (F : Type) := SInt (z : Z) | SFloat (f : F).
Arguments SInt {F} _.
Arguments SFloat {F} _.

Record tensor0 (F : Type) := Tensor0 { device0 : Device; item : scalar F }.
Arguments Tensor0 {F} _ _.
Arguments device0 {F} _.
Arguments item {F} _.

(** *** Indexing

    An index [i] into [n] rows is valid when [-n <= i < n]; a negative one
    counts from the end.  Anything else is an [IndexError]. *)
Definition normalize_index (n : nat) (i : Z) : option nat :=
  if decide (0 ≤ i < Z.of_nat n)%Z then Some (Z.to_nat i)
  else if decide (- Z.of_nat n ≤ i < 0)%Z then Some (Z.to_nat (i + Z.of_nat n))
  else None.

Definition getitem {A} (l : list A) (i : Z) : option A :=
  k ← normalize_index (length l) i; l !! k.

Definition valid_index (n : nat) (i : Z) : Prop :=
  (- Z.of_nat n ≤ i < Z.of_nat n)%Z.

(** torch takes an index tensor from the cpu or from the device of the
    tensor it indexes. *)
Definition index_device_ok (t idx : Device) : Prop := idx = cpu ∨ idx = t.

#[global] Instance index_device_ok_dec t idx : Decision (index_device_ok t idx).
Proof. unfold index_device_ok. apply _. Defined.

(** [t[idx]] for an integer index tensor [idx]: a fresh tensor, on the
    device of [t], with one row per index. *)
Definition index_select {A} (t : tensor A) (idx : tensor Z) : option (tensor A) :=
  if decide (index_device_ok (device t) (device idx))
  then Tensor (device t) <$> mapM (getitem (data t)) (data idx)
  else None.

Fixpoint mask_filter {A} (l : list A) (keep : list bool) : list A :=
  match l, keep with
  | x :: l', b :: keep' =>
      if b then x :: mask_filter l' keep' else mask_filter l' keep'
  | _, _ => []
  end.

(** [t[keep]] for a boolean mask: the mask must have one entry per row. *)
Definition masked_select {A} (t : tensor A) (keep : list bool) : option (tensor A) :=
  if decide (length (data t) = length keep)
  then Some (Tensor (device t) (mask_filter (data t) keep))
  else None.

(** [l[:n]]: a negative [n] drops the last [-n] rows. *)
Definition slice_to {A} (l : list A) (n : Z) : list A :=
  if decide (0 ≤ n)%Z then take (Z.to_nat n) l
  else take (length l - Z.to_nat (- n)) l.

(** [l[n:] = v] for [n >= 0], on a tensor that nothing else aliases. *)
Definition setitem_from {A} (l : list A) (n : nat) (v : A) : list A :=
  take n l ++ replicate (length l - n) v.

(** The rows of [a], then those of [b], on the device of [a]: what
    [torch.cat((a, b))] returns. *)
Definition cat {A} (a b : tensor A) : tensor A :=
  Tensor (device a) (data a ++ data b).

(** [torch.cat((a, b))]: the two operands are on one device. *)
Definition torch_cat {A} (a b : tensor A) : option (tensor A) :=
  if decide (device a = device b) then Some (cat a b) else None.

(** [torch.cat(ts)] for a Python list: an empty list is a [RuntimeError]. *)
Definition cat_list {A} (ts : list (tensor A)) : option (tensor A) :=
  match ts with
  | [] => None
  | t :: _ => Some (Tensor (device t) (concat (data <$> ts)))
  end.

(** [torch.full((n,), v, device=d)]. *)
Definition full {A} (n : nat) (v : A) (d : Device) : tensor A :=
  Tensor d (replicate n v).

(** [torch.arange(n, device=d)]. *)
Definition arange (n : nat) (d : Device) : tensor Z :=
  Tensor d (Z.of_nat <$> seq 0 n).

(** Cut a flat row into consecutive pieces of [k] entries. *)
Definition chunks {A} (k count : nat) (l : list A) : list (list A) :=
  reshape (replicate count k) l.

(** [x.reshape(N, -1, 4)] on the row-major data of [x].  torch infers the
    middle extent as [numel / (4 N)]; it refuses when [4 N] is zero or
    does not divide [numel]. *)
Definition reshape_N_4 {A} (N : nat) (x : tensor A) : option (tensor (list (list A))) :=
  let numel := length (data x) in
  let newsize := N * 4 in
  if decide (newsize = 0) then None
  else if decide (numel `mod` newsize = 0)
  then let K := numel `div` newsize in
       Some (Tensor (device x) (chunks 4 K <$> chunks (K * 4) N (data x)))
  else None.

(** [rows[:, c]] for a column [c] that every row has. *)
Definition column {A} (rows : list (list A)) (c : nat) : option (list A) :=
  mapM (λ r, r !! c) rows.

(** [mask_logit[idx, label]]: row [idx[k]], channel [label[k]]. *)
Definition index_pairs {A} (t : tensor4 A) (idx label : tensor Z)
  : option (tensor3 A) :=
  if decide (length (data idx) = length (data label))
  then Tensor3 (device4 t) (height4 t) (width4 t)
         <$> mapM (λ ic, row ← getitem (maps4 t) ic.1; getitem row ic.2)
                  (zip (data idx) (data label))
  else None.

(** ** Calls to the injected modules

    [forward] is the only method that calls the pooling and prediction
    modules and the losses; a run returns its value together with the calls
    it made, in order. *)
Inductive call :=
  | CallBoxRoiPool | CallBoxPredictor | CallDetectionLoss
  | CallMaskRoiPool | CallMaskPredictor | CallMaskLoss.

Record M (A : Type) := MkM { run : option (A * list call) }.
Arguments MkM {A} _.
Arguments run {A} _.

#[global] Instance M_ret : MRet M := λ A x, MkM (Some (x, [])).
#[global] Instance M_bind : MBind M := λ A B f m,
  MkM (match run m with
       | None => None
       | Some (x, calls) =>
           match run (f x) with
           | None => None
           | Some (y, calls') => Some (y, calls ++ calls')
           end
       end).

(** A computation that calls no module. *)
Definition lift {A} (o : option A) : M A := MkM ((λ x, (x, [])) <$> o).

(** One call of a module. *)
Definition invoke {A} (c : call) (o : option A) : M A :=
  MkM ((λ x, (x, [c])) <$> o).

(** ** The collaborators

    What [RoIHeads.py] imports and does not define: the float operations of
    torch, the utilities of [..Utils], [torchvision]'s [nms] and the two
    loss functions.  Each may raise, hence [option]. *)

(** An object with the two methods of [BoxCoder].  A regression row is the
    list of its four components [dx, dy, dw, dh]. *)
Record BoxCoderT (F Box : Type) := {
  encode : tensor Box → tensor Box → option (tensor (list F));
  decode : tensor (list F) → tensor Box → option (tensor Box);
}.
Arguments encode {F Box} _ _ _.
Arguments decode {F Box} _ _ _.

Class Externals := {
  (** float scalars, boxes (a row of four floats), backbone features,
      pooled features, one two-dimensional map, the [(height, width)] pair *)
  F : Type;
  Box : Type;
  Feature : Type;
  BoxFeature : Type;
  MaskFeature : Type;
  Mask : Type;
  ImageShape : Type;
  (** where torch puts a tensor created without [device=]: the cpu, unless
      the process changed the default *)
  default_device : Device;
  (** [a >= b] on floats, as torch's comparison decides it *)
  geb : F → F → bool;
  (** [F.softmax(_, dim=-1)] on one row, [Tensor.sigmoid] on one map *)
  softmax : list F → list F;
  sigmoid : Mask → Mask;
  (** [..Utils] *)
  box_iou : tensor Box → tensor Box → option (tensor2 F);
  Matcher : F → F → tensor2 F → option (tensor Z * tensor Z);
  BalancedPositiveNegativeSampler :
    Z → F → tensor Z → option (tensor Z * tensor Z);
  BoxCoder : list F → BoxCoderT F Box;
  process_box :
    tensor Box → tensor F → ImageShape → Z → option (tensor Box * tensor F);
  (** [torchvision.ops.boxes.nms] *)
  nms : tensor Box → tensor F → F → option (tensor Z);
  (** [..loss] *)
  detection_loss :
    tensor2 F → tensor F → tensor Z → tensor (list F) →
    option (tensor0 F * tensor0 F);
  mask_loss :
    tensor4 Mask → tensor Box → tensor Z → tensor Z → tensor3 Mask →
    option (tensor0 F);
}.

Section RoIHeads.
Context `{Ext : Externals}.

(** What the dictionaries [target] and [result] hold. *)
Inductive value :=
  | VBox (t : tensor Box)
  | VInt (t : tensor Z)
  | VFloat (t : tensor F)
  | VMask (t : tensor3 Mask).

Definition as_box (v : value) : option (tensor Box) :=
  match v with VBox t => Some t | _ => None end.
Definition as_int (v : value) : option (tensor Z) :=
  match v with VInt t => Some t | _ => None end.
Definition as_mask (v : value) : option (tensor3 Mask) :=
  match v with VMask t => Some t | _ => None end.

(** [d[key]], read as the kind of tensor the code goes on to use. *)
Definition item_box (d : gmap string value) (key : string) : option (tensor Box) :=
  d !! key ≫= as_box.
Definition item_int (d : gmap string value) (key : string) : option (tensor Z) :=
  d !! key ≫= as_int.
Definition item_mask (d : gmap string value) (key : string) : option (tensor3 Mask) :=
  d !! key ≫= as_mask.

(** The attributes of a [RoIHeads] object. *)
Record RoIHeads := {
  box_roi_pool : Feature → tensor Box → ImageShape → option BoxFeature;
  box_predictor : BoxFeature → option (tensor2 F * tensor F);
  mask_roi_pool :
    option (Feature → tensor Box → ImageShape → option MaskFeature);
  mask_predictor : option (MaskFeature → option (tensor4 Mask));
  train_mode : bool;
  proposal_matcher : tensor2 F → option (tensor Z * tensor Z);
  fg_bg_sampler : tensor Z → option (tensor Z * tensor Z);
  box_coder : BoxCoderT F Box;
  score_thresh : F;
  nms_thresh : F;
  num_detections : Z;
  min_size : Z;
}.

(** [RoIHeads.__init__] *)
Definition __init__
    (box_roi_pool : Feature → tensor Box → ImageShape → option BoxFeature)
    (box_predictor : BoxFeature → option (tensor2 F * tensor F))
    (fg_iou_thresh bg_iou_thresh : F) (num_samples : Z)
    (positive_fraction : F) (reg_weights : list F)
    (score_thresh nms_thresh : F) (num_detections : Z)
    (train_mode : bool) : RoIHeads :=
  {| box_roi_pool := box_roi_pool;
     box_predictor := box_predictor;
     mask_roi_pool := None;
     mask_predictor := None;
     train_mode := train_mode;
     proposal_matcher := Matcher fg_iou_thresh bg_iou_thresh;
     fg_bg_sampler := BalancedPositiveNegativeSampler num_samples positive_fraction;
     box_coder := BoxCoder reg_weights;
     score_thresh := score_thresh;
     nms_thresh := nms_thresh;
     num_detections := num_detections;
     min_size := 1 |}.

(** [self.mask_roi_pool = pool; self.mask_predictor = predictor], the
    assignments that switch the mask branch on after construction. *)
Definition set_mask_branch (self : RoIHeads)
    (pool : option (Feature → tensor Box → ImageShape → option MaskFeature))
    (predictor : option (MaskFeature → option (tensor4 Mask))) : RoIHeads :=
  {| box_roi_pool := box_roi_pool self;
     box_predictor := box_predictor self;
     mask_roi_pool := pool;
     mask_predictor := predictor;
     train_mode := train_mode self;
     proposal_matcher := proposal_matcher self;
     fg_bg_sampler := fg_bg_sampler self;
     box_coder := box_coder self;
     score_thresh := score_thresh self;
     nms_thresh := nms_thresh self;
     num_detections := num_detections self;
     min_size := min_size self |}.

(** [RoIHeads.select_training_samples].  The sampler draws at random; here
    it is the function of one draw, and every statement below holds for
    any such function. *)
Definition select_training_samples (self : RoIHeads)
    (proposal : tensor Box) (target : gmap string value)
  : option (tensor Box * tensor Z * tensor Z * tensor (list F)) :=
  gt_box ← item_box target "boxes";
  gt_label ← item_int target "labels";
  proposal ← torch_cat proposal gt_box;
  iou ← box_iou gt_box proposal;
  '(pos_neg_label, matched_idx) ← proposal_matcher self iou;
  '(pos_idx, neg_idx) ← fg_bg_sampler self pos_neg_label;
  idx ← torch_cat pos_idx neg_idx;
  matched_pos ← index_select matched_idx pos_idx;
  gt_pos ← index_select gt_box matched_pos;
  proposal_pos ← index_select proposal pos_idx;
  regression_target ← encode (box_coder self) gt_pos proposal_pos;
  proposal ← index_select proposal idx;
  matched_idx ← index_select matched_idx idx;
  label ← index_select gt_label matched_idx;
  let num_pos := length (data pos_idx) in
  let label := Tensor (device label) (setitem_from (data label) num_pos 0%Z) in
  Some (proposal, matched_idx, label, regression_target).

(** The body of the loop of [detect], for one [image_class]. *)
Definition detect_class (self : RoIHeads) (dev : Device)
    (pred_score : tensor2 F) (box_regression : tensor (list (list F)))
    (proposal : tensor Box) (image_shape : ImageShape) (image_class : nat)
  : option (tensor Box * tensor Z * tensor F) :=
  score ← Tensor (device2 pred_score) <$> column (rows pred_score) image_class;
  box_delta ← Tensor (device box_regression)
                <$> column (data box_regression) image_class;
  let keep := (λ s, geb s (score_thresh self)) <$> data score in
  box ← masked_select proposal keep;
  score ← masked_select score keep;
  box_delta ← masked_select box_delta keep;
  box ← decode (box_coder self) box_delta box;
  '(box, score) ← process_box box score image_shape (min_size self);
  keep ← nms box score (nms_thresh self);
  let keep := Tensor (device keep)
                (slice_to (data keep) (num_detections self)) in
  box ← index_select box keep;
  score ← index_select score keep;
  let label := full (length (data keep)) (Z.of_nat image_class) dev in
  Some (box, label, score).

(** [RoIHeads.detect].  [range(1, num_classes)] is [seq 1 (num_classes - 1)];
    the three lists the loop appends to are the components of [per_class]. *)
Definition detect (self : RoIHeads) (class_logit : tensor2 F)
    (box_regression : tensor F) (proposal : tensor Box)
    (image_shape : ImageShape) : option (gmap string value) :=
  let N := length (rows class_logit) in
  let num_classes := ncols class_logit in
  let dev := device2 class_logit in
  let pred_score :=
    Tensor2 (device2 class_logit) (ncols class_logit)
            (softmax <$> rows class_logit) in
  box_regression ← reshape_N_4 N box_regression;
  per_class ← mapM (detect_class self dev pred_score box_regression
                      proposal image_shape)
                   (seq 1 (num_classes - 1));
  boxes ← cat_list ((λ r, r.1.1) <$> per_class);
  labels ← cat_list ((λ r, r.1.2) <$> per_class);
  scores ← cat_list ((λ r, r.2) <$> per_class);
  Some (<["scores" := VFloat scores]>
          (<["labels" := VInt labels]> (<["boxes" := VBox boxes]> ∅))).

(** [torch.tensor(0)] and [torch.empty((0, h, w))]: no [device=]. *)
Definition torch_tensor (z : Z) : tensor0 F := Tensor0 default_device (SInt z).
Definition torch_empty (h w : nat) : tensor3 Mask := Tensor3 default_device h w [].

(** [RoIHeads.forward].  The names that only training mode binds
    ([matched_idx], [label], [regression_target]) travel in [sel], which is
    [Some _] exactly when [train_mode] holds. *)
Definition forward (self : RoIHeads) (feature : Feature)
    (proposal : tensor Box) (image_shape : ImageShape)
    (target : gmap string value)
  : M (gmap string value * gmap string (tensor0 F)) :=
  sel ← (if train_mode self
         then s ← lift (select_training_samples self proposal target);
              mret (Some s)
         else mret None);
  let proposal := match sel with Some (p, _, _, _) => p | None => proposal end in
  box_feature ← invoke CallBoxRoiPool
                  (box_roi_pool self feature proposal image_shape);
  '(class_logit, box_regression) ←
    invoke CallBoxPredictor (box_predictor self box_feature);
  '(result, losses) ←
    match sel with
    | Some (_, _, label, regression_target) =>
        '(classifier_loss, box_reg_loss) ←
          invoke CallDetectionLoss
            (detection_loss class_logit box_regression label regression_target);
        mret (∅, <["roi_box_loss" := box_reg_loss]>
                   (<["roi_classifier_loss" := classifier_loss]> ∅))
    | None =>
        result ← lift (detect self class_logit box_regression proposal image_shape);
        mret (result, ∅)
    end;
  match mask_roi_pool self, mask_predictor self with
  | Some mask_roi_pool, Some mask_predictor =>
      match sel with
      | Some (_, matched_idx, label, regression_target) =>
          let num_pos := length (data regression_target) in
          let mask_proposal :=
            Tensor (device proposal) (take num_pos (data proposal)) in
          let pos_matched_idx :=
            Tensor (device matched_idx) (take num_pos (data matched_idx)) in
          let mask_label := Tensor (device label) (take num_pos (data label)) in
          if decide (length (data mask_proposal) = 0)
          then mret (result, <["roi_mask_loss" := torch_tensor 0]> losses)
          else
            mask_feature ← invoke CallMaskRoiPool
                             (mask_roi_pool feature mask_proposal image_shape);
            mask_logit ← invoke CallMaskPredictor (mask_predictor mask_feature);
            gt_mask ← lift (item_mask target "masks");
            m_loss ← invoke CallMaskLoss
                       (mask_loss mask_logit mask_proposal pos_matched_idx
                                  mask_label gt_mask);
            mret (result, <["roi_mask_loss" := m_loss]> losses)
      | None =>
          mask_proposal ← lift (item_box result "boxes");
          if decide (length (data mask_proposal) = 0)
          then mret (<["masks" := VMask (torch_empty 28 28)]> result, losses)
          else
            mask_feature ← invoke CallMaskRoiPool
                             (mask_roi_pool feature mask_proposal image_shape);
            mask_logit ← invoke CallMaskPredictor (mask_predictor mask_feature);
            label ← lift (item_int result "labels");
            let idx := arange (length (data label)) (device label) in
            mask_logit ← lift (index_pairs mask_logit idx label);
            let mask_prob :=
              Tensor3 (device3 mask_logit) (height mask_logit) (width mask_logit)
                      (sigmoid <$> maps mask_logit) in
            mret (<["masks" := VMask mask_prob]> result, losses)
      end
  | _, _ => mret (result, losses)
  end.

End RoIHeads.

(** ** What the properties are stated with *)

Section Statements.
Context `{Ext : Externals}.

(** The first half of [select_training_samples]: the ground truth read
    from [target], the matcher's answer on the combined proposals and the
    sampler's draw. *)
Definition matching (self : RoIHeads) (proposal : tensor Box)
    (target : gmap string value)
    (gt_box : tensor Box) (gt_label matched_all pos_idx neg_idx : tensor Z)
  : Prop :=
  ∃ iou pos_neg_label,
    item_box target "boxes" = Some gt_box ∧
    item_int target "labels" = Some gt_label ∧
    box_iou gt_box (cat proposal gt_box) = Some iou ∧
    proposal_matcher self iou = Some (pos_neg_label, matched_all) ∧
    fg_bg_sampler self pos_neg_label = Some (pos_idx, neg_idx).

(** The reading of the matched indices as positions of the combined
    sequence: the box the code gathers from [gt_box] with a returned matched
    index would be the box at that position of [cat proposal gt_box]. *)
Definition matched_idx_into_combined (self : RoIHeads) (proposal : tensor Box)
    (target : gmap string value) : Prop :=
  ∀ gt_box p m l r,
    item_box target "boxes" = Some gt_box →
    select_training_samples self proposal target = Some (p, m, l, r) →
    ∀ k g, data m !! k = Some g →
           getitem (data gt_box) g = getitem (data (cat proposal gt_box)) g.

(** Row-wise coders: given one ground-truth box per proposal, [encode]
    answers one regression row per proposal. *)
Definition encode_rowwise (c : BoxCoderT F Box) : Prop :=
  ∀ g p r,
    length (data g) = length (data p) →
    encode c g p = Some r → length (data r) = length (data p).

(** [process_box] clips and drops boxes: a score it returns is one of the
    scores it was given. *)
Definition process_box_filters : Prop :=
  ∀ b s image_shape min_size b' s',
    process_box b s image_shape min_size = Some (b', s') →
    ∀ x, x ∈ data s' → x ∈ data s.

(** [a] and [b] may both stay: the comparison [cmp] of their IoU with the
    threshold fails. *)
Definition apart (iou : Box → Box → F) (cmp : F → F → bool) (thr : F)
    (a b : Box) : Prop :=
  cmp (iou a b) thr = false.

(** In parallel sequences of boxes and labels, any two detections of one
    class are related by [R]. *)
Definition separated_per_class (R : Box → Box → Prop)
    (boxes : list Box) (labels : list Z) : Prop :=
  ∀ p q b1 b2 c,
    p ≠ q →
    boxes !! p = Some b1 → boxes !! q = Some b2 →
    labels !! p = Some c → labels !! q = Some c →
    R b1 b2.

Definition count_class (c : Z) (labels : list Z) : nat :=
  length (filter (λ x, x = c) labels).

(** The contract of [nms], for the IoU [iou] and the test [cmp] the
    primitive suppresses on: no two boxes it keeps overlap. *)
Definition nms_contract (iou : Box → Box → F) (cmp : F → F → bool) : Prop :=
  ∀ b s thr keep,
    nms b s thr = Some keep →
    ∀ p q i j bi bj,
      p ≠ q →
      data keep !! p = Some i → data keep !! q = Some j →
      getitem (data b) i = Some bi → getitem (data b) j = Some bj →
      apart iou cmp thr bi bj.

(** The mask branch runs when both attributes are set. *)
Definition mask_branch_on (self : RoIHeads) : Prop :=
  is_Some (mask_roi_pool self) ∧ is_Some (mask_predictor self).

(** The device a dictionary entry lives on. *)
Definition value_device (v : value) : Device :=
  match v with
  | VBox t => device t
  | VInt t => device t
  | VFloat t => device t
  | VMask t => device3 t
  end.

End Statements.

(** The calls that belong to the mask branch. *)
Definition mask_call (c : call) : bool :=
  match c with
  | CallMaskRoiPool | CallMaskPredictor | CallMaskLoss => true
  | _ => false
  end.


(** ** A reference instance of the collaborators

    Rational numbers stand for floats.  The utilities follow the usual
    Mask R-CNN definitions; where those need [exp] or [log] the instance
    uses a rational function that agrees with them at the points the
    examples use (zero logits, zero deltas, equal widths). *)
Module Reference.

Definition box : Type := Q * Q * Q * Q.

Definition x1 (b : box) : Q := b.1.1.1.
Definition y1 (b : box) : Q := b.1.1.2.
Definition x2 (b : box) : Q := b.1.2.
Definition y2 (b : box) : Q := b.2.

Definition qsum (l : list Q) : Q := foldr Qplus 0%Q l.

Definition area (b : box) : Q := ((x2 b - x1 b) * (y2 b - y1 b))%Q.

(** Intersection over union of two boxes. *)
Definition iou (a b : box) : Q :=
  let w := Qmax 0 (Qmin (x2 a) (x2 b) - Qmax (x1 a) (x1 b)) in
  let h := Qmax 0 (Qmin (y2 a) (y2 b) - Qmax (y1 a) (y1 b)) in
  let inter := (w * h)%Q in
  Qred (inter / (area a + area b - inter)).

Definition ge (a b : Q) : bool := Qle_bool b a.
Definition gt (a b : Q) : bool := negb (Qle_bool a b).

(** [box_iou(a, b)]: one row per box of [a], one column per box of [b]. *)
Definition box_iou (a b : tensor box) : option (tensor2 Q) :=
  Some (Tensor2 (device a) (length (data b))
                ((λ x, iou x <$> data b) <$> data a)).

(** Largest entry of a non-empty column and the first row that holds it. *)
Fixpoint max_argmax (l : list Q) (i : nat) (best : Q) (arg : nat) : Q * nat :=
  match l with
  | [] => (best, arg)
  | x :: l' =>
      if gt x best then max_argmax l' (S i) x i
      else max_argmax l' (S i) best arg
  end.

(** [Matcher(high, low)(iou)]: per column, label 1 at or above [high],
    0 below [low], -1 in between, and the best row.  No row: [max] over an
    empty dimension raises. *)
Definition Matcher (high low : Q) (m : tensor2 Q)
  : option (tensor Z * tensor Z) :=
  match rows m with
  | [] => None
  | r0 :: _ =>
      cols ← mapM (column (rows m)) (seq 0 (ncols m));
      let best := (λ c, match c with
                        | [] => (0%Q, 0)
                        | x :: c' => max_argmax c' 1 x 0
                        end) <$> cols in
      let label := (λ va, if ge va.1 high then 1%Z
                          else if gt low va.1 then 0%Z else (-1)%Z) <$> best in
      Some (Tensor (device2 m) label,
            Tensor (device2 m) ((λ va, Z.of_nat va.2) <$> best))
  end.

(** Positions of the entries of [l] that satisfy [p]. *)
Definition positions (p : Z → bool) (l : list Z) : list Z :=
  (λ ix, Z.of_nat ix.1) <$> filter (λ ix, p ix.2 = true) (imap pair l).

(** [BalancedPositiveNegativeSampler], with the identity in place of the
    random permutation. *)
Definition Sampler (num_samples : Z) (positive_fraction : Q) (label : tensor Z)
  : option (tensor Z * tensor Z) :=
  let positive := positions (λ v, (1 <=? v)%Z) (data label) in
  let negative := positions (λ v, (v =? 0)%Z) (data label) in
  let num_pos :=
    Z.min (Z.of_nat (length positive))
          (Qfloor (inject_Z num_samples * positive_fraction)) in
  let num_neg := Z.min (Z.of_nat (length negative)) (num_samples - num_pos) in
  Some (Tensor (device label) (slice_to positive num_pos),
        Tensor (device label) (slice_to negative num_neg)).

Definition half : Q := 1 # 2.

(** [BoxCoder(weights)]: centre offsets scaled by the box size; the size
    ratio [r] enters as [r - 1] where the float code has [log r]. *)
Definition encode1 (w : list Q) (g p : box) : option (list Q) :=
  wx ← w !! 0; wy ← w !! 1; ww ← w !! 2; wh ← w !! 3;
  let pw := (x2 p - x1 p)%Q in
  let ph := (y2 p - y1 p)%Q in
  let gw := (x2 g - x1 g)%Q in
  let gh := (y2 g - y1 g)%Q in
  let dx := (wx * ((x1 g + half * gw) - (x1 p + half * pw)) / pw)%Q in
  let dy := (wy * ((y1 g + half * gh) - (y1 p + half * ph)) / ph)%Q in
  Some [Qred dx; Qred dy; Qred (ww * (gw / pw - 1)); Qred (wh * (gh / ph - 1))].

Definition decode1 (w : list Q) (d : list Q) (p : box) : option box :=
  wx ← w !! 0; wy ← w !! 1; ww ← w !! 2; wh ← w !! 3;
  dx ← d !! 0; dy ← d !! 1; dw ← d !! 2; dh ← d !! 3;
  let pw := (x2 p - x1 p)%Q in
  let ph := (y2 p - y1 p)%Q in
  let cx := (dx / wx * pw + (x1 p + half * pw))%Q in
  let cy := (dy / wy * ph + (y1 p + half * ph))%Q in
  let nw := ((1 + dw / ww) * pw)%Q in
  let nh := ((1 + dh / wh) * ph)%Q in
  Some (Qred (cx - half * nw), Qred (cy - half * nh),
        Qred (cx + half * nw), Qred (cy + half * nh)).

Definition rowwise {A B C} (f : A → B → option C) (a : tensor A) (b : tensor B)
  : option (tensor C) :=
  if decide (length (data a) = length (data b))
  then Tensor (device a) <$> mapM (λ ab, f ab.1 ab.2) (zip (data a) (data b))
  else None.

Definition BoxCoder (w : list Q) : BoxCoderT Q box :=
  {| encode := rowwise (encode1 w); decode := rowwise (decode1 w) |}.

Definition clamp (lo hi x : Q) : Q := Qmax lo (Qmin hi x).

(** [process_box]: clip to the image, then drop the boxes narrower or
    lower than [min_size]. *)
Definition process_box (b : tensor box) (score : tensor Q)
    (image_shape : Q * Q) (min_size : Z) : option (tensor box * tensor Q) :=
  let clipped :=
    (λ r, (clamp 0 image_shape.2 (x1 r), clamp 0 image_shape.1 (y1 r),
           clamp 0 image_shape.2 (x2 r), clamp 0 image_shape.1 (y2 r)))
      <$> data b in
  let keep := (λ r, ge (x2 r - x1 r) (inject_Z min_size)
                    && ge (y2 r - y1 r) (inject_Z min_size)) <$> clipped in
  b' ← masked_select (Tensor (device b) clipped) keep;
  score' ← masked_select score keep;
  Some (b', score').

(** [torchvision.ops.nms]: visit the boxes by decreasing score and drop a
    box when its IoU with a box kept before it is greater than the
    threshold. *)
Definition overlaps (b : list box) (thr : Q) (k i : nat) : bool :=
  match b !! k, b !! i with
  | Some bk, Some bi => gt (iou bk bi) thr
  | _, _ => false
  end.

Fixpoint greedy (b : list box) (thr : Q) (order kept : list nat) : list nat :=
  match order with
  | [] => []
  | i :: order' =>
      if existsb (λ k, overlaps b thr k i) kept
      then greedy b thr order' kept
      else i :: greedy b thr order' (i :: kept)
  end.

Definition score_at (score : list Q) (i : nat) : Q := default 0%Q (score !! i).

Definition by_score (score : list Q) (i j : nat) : Prop :=
  ge (score_at score i) (score_at score j) = true.

#[global] Instance by_score_dec score : RelDecision (by_score score).
Proof. intros i j. unfold by_score. apply _. Defined.

Definition nms (b : tensor box) (score : tensor Q) (thr : Q) : option (tensor Z) :=
  if decide (length (data b) = length (data score))
  then let order := merge_sort (by_score (data score)) (seq 0 (length (data b))) in
       Some (Tensor (device b) (Z.of_nat <$> greedy (data b) thr order []))
  else None.

(** The modules and the losses of the examples: the box head and the mask
    head answer zero logits and zero deltas for [num_classes] classes, the
    losses count. *)
Definition num_classes : nat := 2.

Definition box_roi_pool (feature : unit) (b : tensor box) (image_shape : Q * Q)
  : option (tensor box) := Some b.

Definition box_predictor (x : tensor box) : option (tensor2 Q * tensor Q) :=
  let n := length (data x) in
  Some (Tensor2 (device x) num_classes (replicate n (replicate num_classes 0%Q)),
        Tensor (device x) (replicate (n * num_classes * 4) 0%Q)).

Definition mask_roi_pool (feature : unit) (b : tensor box) (image_shape : Q * Q)
  : option (tensor box) := Some b.

Definition zero_map : list (list Q) := replicate 28 (replicate 28 0%Q).

Definition mask_predictor (x : tensor box) : option (tensor4 (list (list Q))) :=
  Some (Tensor4 (device x) 28 28
                (replicate (length (data x)) (replicate num_classes zero_map))).

(** The logistic function where it is rational: [x / (1 + |x|)] rescaled,
    one half at zero. *)
Definition sigmoid1 (x : Q) : Q := Qred (half * (1 + x / (1 + Qabs x))).

Definition sigmoid (m : list (list Q)) : list (list Q) :=
  (λ row : list Q, sigmoid1 <$> row) <$> m.

(** Base-2 softmax over the integer parts of the logits: the softmax
    itself on a row of equal logits. *)
Definition softmax (row : list Q) : list Q :=
  let w := (λ x, Qpower 2 (Qfloor x)) <$> row in
  (λ x, Qred (x / qsum w)) <$> w.

Definition detection_loss (class_logit : tensor2 Q) (box_regression : tensor Q)
    (label : tensor Z) (regression_target : tensor (list Q))
  : option (tensor0 Q * tensor0 Q) :=
  if decide (length (rows class_logit) = length (data label))
  then Some (Tensor0 (device2 class_logit)
               (SFloat (inject_Z (Z.of_nat (length (data label))))),
             Tensor0 (device box_regression)
               (SFloat (inject_Z (Z.of_nat (length (data regression_target))))))
  else None.

Definition mask_loss (mask_logit : tensor4 (list (list Q)))
    (proposal : tensor box) (matched_idx label : tensor Z)
    (gt_mask : tensor3 (list (list Q))) : option (tensor0 Q) :=
  _ ← index_select (Tensor (device3 gt_mask) (maps gt_mask)) matched_idx;
  Some (Tensor0 (device4 mask_logit)
          (SFloat (inject_Z (Z.of_nat (length (data label)))))).

End Reference.

Definition reference : Externals := {|
  F := Q;
  Box := Reference.box;
  Feature := unit;
  BoxFeature := tensor Reference.box;
  MaskFeature := tensor Reference.box;
  Mask := list (list Q);
  ImageShape := Q * Q;
  default_device := cpu;
  geb := Reference.ge;
  softmax := Reference.softmax;
  sigmoid := Reference.sigmoid;
  box_iou := Reference.box_iou;
  Matcher := Reference.Matcher;
  BalancedPositiveNegativeSampler := Reference.Sampler;
  BoxCoder := Reference.BoxCoder;
  process_box := Reference.process_box;
  nms := Reference.nms;
  detection_loss := Reference.detection_loss;
  mask_loss := Reference.mask_loss;
|}.


(** ** Example inputs

    One image on the first GPU: two proposals, one ground-truth box of
    class 2 that the first proposal overlaps with IoU 0.8. *)
Module Examples.
#[local] Existing Instance reference.

Definition gpu : Device := cuda 0.

Definition image_shape : Q * Q := (100%Q, 100%Q).

Definition weights : list Q := [10%Q; 10%Q; 5%Q; 5%Q].

Definition proposal : tensor Reference.box :=
  Tensor gpu [(0%Q, 0%Q, 10%Q, 8%Q); (20%Q, 20%Q, 30%Q, 30%Q)].

Definition gt_box : tensor Reference.box :=
  Tensor gpu [(0%Q, 0%Q, 10%Q, 10%Q)].

Definition gt_label : tensor Z := Tensor gpu [2%Z].

Definition target : gmap string value :=
  <["labels" := VInt gt_label]> (<["boxes" := VBox gt_box]> ∅).

(** What the matcher and the sampler answer on them: both proposals and
    the appended ground-truth box are matched to ground-truth box 0; the
    first proposal and the appended box are drawn as positive, the second
    proposal as negative. *)
Definition iou_matrix : tensor2 Q := Tensor2 gpu 3 [[4 # 5; 0%Q; 1%Q]].
Definition pos_neg_label : tensor Z := Tensor gpu [1%Z; 0%Z; 1%Z].
Definition matched_all : tensor Z := Tensor gpu [0%Z; 0%Z; 0%Z].
Definition pos_idx : tensor Z := Tensor gpu [0%Z; 2%Z].
Definition neg_idx : tensor Z := Tensor gpu [1%Z].

(** What [select_training_samples] returns on them. *)
Definition sampled_proposal : tensor Reference.box :=
  Tensor gpu [(0%Q, 0%Q, 10%Q, 8%Q); (0%Q, 0%Q, 10%Q, 10%Q);
              (20%Q, 20%Q, 30%Q, 30%Q)].
Definition sampled_matched_idx : tensor Z := Tensor gpu [0%Z; 0%Z; 0%Z].
Definition sampled_label : tensor Z := Tensor gpu [2%Z; 2%Z; 0%Z].
Definition regression_target : tensor (list Q) :=
  Tensor gpu [[0%Q; 5 # 4; 0%Q; 5 # 4]; [0%Q; 0%Q; 0%Q; 0%Q]].

(** [RoIHeads(..., num_samples=4, positive_fraction=0.5, ...,
    score_thresh=0.05, nms_thresh=0.5, num_detections=100, train_mode)] *)
Definition heads (positive_fraction score_thresh : Q) (train_mode : bool)
  : RoIHeads :=
  __init__ Reference.box_roi_pool Reference.box_predictor (1 # 2) (1 # 2) 4
       positive_fraction weights score_thresh (1 # 2) 100 train_mode.

Definition with_masks (self : RoIHeads) : RoIHeads :=
  set_mask_branch self (Some Reference.mask_roi_pool)
                  (Some Reference.mask_predictor).

Definition trainer : RoIHeads := heads (1 # 2) (1 # 20) true.

(** A sampler told to draw no positive sample. *)
Definition trainer_no_positive : RoIHeads := with_masks (heads 0 (1 # 20) true).

Definition detector : RoIHeads := heads (1 # 2) (1 # 20) false.

(** A score threshold that no proposal of the examples reaches. *)
Definition quiet_detector : RoIHeads :=
  with_masks (heads (1 # 2) (9 # 10) false).

(** Two proposals whose IoU is exactly one half, the NMS threshold, with
    zero logits and zero deltas for two classes. *)
Definition overlapping : tensor Reference.box :=
  Tensor gpu [(0%Q, 0%Q, 2%Q, 2%Q); (0%Q, 0%Q, 2%Q, 1%Q)].

Definition class_logit : tensor2 Q :=
  Tensor2 gpu 2 [[0%Q; 0%Q]; [0%Q; 0%Q]].

Definition box_regression : tensor Q := Tensor gpu (replicate 16 0%Q).

(** What [detect] returns on them: both boxes, for class 1. *)
Definition detections : gmap string value :=
  <["scores" := VFloat (Tensor gpu [1 # 2; 1 # 2])]>
    (<["labels" := VInt (Tensor gpu [1%Z; 1%Z])]>
       (<["boxes" := VBox overlapping]> ∅)).

(** A detector built with a negative [num_detections], and what [detect]
    returns for it on [proposal]: non-maximum suppression keeps both boxes
    and the slice [[:-1]] drops the last of them. *)
Definition negative_cap : RoIHeads :=
  __init__ Reference.box_roi_pool Reference.box_predictor (1 # 2) (1 # 2) 4
       (1 # 2) weights (1 # 20) (1 # 2) (-1) false.
Definition all_but_last : gmap string value :=
  <["scores" := VFloat (Tensor gpu [1 # 2])]>
    (<["labels" := VInt (Tensor gpu [1%Z])]>
       (<["boxes" := VBox (Tensor gpu [(0%Q, 0%Q, 10%Q, 8%Q)])]> ∅)).

(** What the sample selection of [trainer_no_positive] returns, and what
    the box head and the detection loss answer on it. *)
Definition negative_only : tensor Reference.box :=
  Tensor gpu [(20%Q, 20%Q, 30%Q, 30%Q)].
Definition zero_logit (n : nat) : tensor2 Q :=
  Tensor2 gpu 2 (replicate n [0%Q; 0%Q]).
Definition zero_delta (n : nat) : tensor Q := Tensor gpu (replicate (n * 8) 0%Q).
Definition loss (x : Q) : tensor0 Q := Tensor0 gpu (SFloat x).

(** What [detect] of [quiet_detector] returns on [proposal]. *)
Definition no_detection : gmap string value :=
  <["scores" := VFloat (Tensor gpu [])]>
    (<["labels" := VInt (Tensor gpu [])]> (<["boxes" := VBox (Tensor gpu [])]> ∅)).

(** Logits without a foreground class, and logits for no proposal. *)
Definition one_column : tensor2 Q := Tensor2 gpu 1 [[0%Q]; [0%Q]].
Definition no_row : tensor2 Q := Tensor2 gpu 2 [].

(** A target with two boxes and one label, and a proposal that overlaps
    the second box: the matcher sends it to ground-truth index 1. *)
Definition near_second : tensor Reference.box :=
  Tensor gpu [(20%Q, 20%Q, 30%Q, 28%Q)].
Definition two_boxes : tensor Reference.box :=
  Tensor gpu [(0%Q, 0%Q, 10%Q, 10%Q); (20%Q, 20%Q, 30%Q, 30%Q)].
Definition one_label_short : gmap string value :=
  <["labels" := VInt gt_label]> (<["boxes" := VBox two_boxes]> ∅).
Definition matched_second : tensor Z := Tensor gpu [1%Z; 0%Z; 1%Z].

(** [target] with its labels left on the cpu. *)
Definition cpu_label : tensor Z := Tensor cpu [2%Z].
Definition labels_on_cpu : gmap string value :=
  <["labels" := VInt cpu_label]> (<["boxes" := VBox gt_box]> ∅).

(** [target] with one more entry. *)
Definition target_with_area : gmap string value :=
  <["area" := VInt (Tensor gpu [100%Z])]> target.

(** What [detect] of [detector] returns on [proposal], and the masks of an
    inference run on it: the mask head answers zero logits, of which the
    sigmoid is one half. *)
Definition found : gmap string value :=
  <["scores" := VFloat (Tensor gpu [1 # 2; 1 # 2])]>
    (<["labels" := VInt (Tensor gpu [1%Z; 1%Z])]>
       (<["boxes" := VBox proposal]> ∅)).
Definition zero_mask_logit : tensor4 (list (list Q)) :=
  Tensor4 gpu 28 28 (replicate 2 (replicate 2 Reference.zero_map)).
Definition picked : tensor3 (list (list Q)) :=
  Tensor3 gpu 28 28 (replicate 2 Reference.zero_map).
Definition half_masks : tensor3 (list (list Q)) :=
  Tensor3 gpu 28 28 (Reference.sigmoid <$> replicate 2 Reference.zero_map).

End Examples.

(** * Properties *)

(** ** Indexing *)

Lemma getitem_elem_of {A} (l : list A) i x : getitem l i = Some x → x ∈ l.
Proof.
  unfold getitem. intros H.
  destruct (normalize_index (length l) i) as [k|]; [|done].
  simpl in H. by eapply list_elem_of_lookup_2.
Qed.

Lemma getitem_is_Some {A} (l : list A) i :
  valid_index (length l) i → is_Some (getitem l i).
Proof.
  unfold valid_index, getitem, normalize_index. intros H.
  repeat case_decide; simpl; try lia; apply lookup_lt_is_Some_2; lia.
Qed.

Lemma index_select_is_Some {A} (t : tensor A) idx :
  index_device_ok (device t) (device idx) →
  Forall (valid_index (length (data t))) (data idx) →
  is_Some (index_select t idx).
Proof.
  intros Hd H. unfold index_select. rewrite decide_True by done.
  destruct (mapM_is_Some_2 (getitem (data t)) (data idx)) as [k ->]; [|done].
  eapply Forall_impl; [exact H|]. intros i Hi. by apply getitem_is_Some.
Qed.

Lemma mapM_app_Some {A B} (f : A → option B) l1 l2 k :
  mapM f (l1 ++ l2) = Some k →
  ∃ k1 k2, mapM f l1 = Some k1 ∧ mapM f l2 = Some k2 ∧ k = k1 ++ k2.
Proof.
  rewrite mapM_Some. intros H.
  apply Forall2_app_inv_l in H as (k1 & k2 & H1 & H2 & ->).
  exists k1, k2. by rewrite !mapM_Some.
Qed.

Lemma mapM_lookup {A B} (f : A → option B) l k i :
  mapM f l = Some k → k !! i = l !! i ≫= f.
Proof.
  rewrite mapM_Some. intros H. revert i.
  induction H as [|x y l k Hxy _ IH]; intros [|i]; simpl; try done.
Qed.

Lemma index_select_length {A} (t : tensor A) idx r :
  index_select t idx = Some r → length (data r) = length (data idx).
Proof.
  unfold index_select. intros H. case_decide; [|done]. simplify_option_eq.
  symmetry. by eapply length_mapM.
Qed.

Lemma index_select_lookup {A} (t : tensor A) idx r k :
  index_select t idx = Some r →
  data r !! k = data idx !! k ≫= getitem (data t).
Proof.
  unfold index_select. intros H. case_decide; [|done]. simplify_option_eq.
  by apply mapM_lookup.
Qed.

Lemma index_select_elem_of {A} (t : tensor A) idx r x :
  index_select t idx = Some r → x ∈ data r → x ∈ data t.
Proof.
  intros H [k Hk]%list_elem_of_lookup_1.
  rewrite (index_select_lookup _ _ _ _ H) in Hk.
  destruct (data idx !! k) as [i|]; [|done].
  by eapply getitem_elem_of.
Qed.

Lemma index_select_Forall {A} (P : A → Prop) (t : tensor A) idx r :
  index_select t idx = Some r → Forall P (data t) → Forall P (data r).
Proof.
  intros H Ht. apply Forall_forall. intros x Hx.
  eapply Forall_forall; [exact Ht|]. by eapply index_select_elem_of.
Qed.

Lemma index_select_device {A} (t : tensor A) idx r :
  index_select t idx = Some r →
  device r = device t ∧ index_device_ok (device t) (device idx).
Proof.
  unfold index_select. intros H. case_decide; [|done].
  destruct (mapM _ _); simplify_eq/=. done.
Qed.

(** Gathering with [cat a b] gathers with [a], then with [b]. *)
Lemma index_select_cat {A} (t : tensor A) a b r :
  device a = device b →
  index_select t (cat a b) = Some r →
  ∃ ra rb, index_select t a = Some ra ∧ index_select t b = Some rb
           ∧ data r = data ra ++ data rb.
Proof.
  unfold index_select, cat. simpl. intros <- H.
  case_decide; [|done].
  destruct (mapM _ (data a ++ data b)) as [k|] eqn:E; [|done].
  apply mapM_app_Some in E as (k1 & k2 & -> & -> & ->).
  simpl in *. simplify_eq. eauto.
Qed.

Lemma torch_cat_Some {A} (a b r : tensor A) :
  torch_cat a b = Some r ↔ device a = device b ∧ r = cat a b.
Proof.
  unfold torch_cat. case_decide as Hd; split.
  - intros [= <-]. done.
  - by intros [_ ->].
  - done.
  - by intros [? _].
Qed.

Lemma length_setitem_from {A} (l : list A) n v :
  length (setitem_from l n v) = length l.
Proof.
  unfold setitem_from. rewrite length_app, length_take, length_replicate. lia.
Qed.

Lemma setitem_from_lookup_lt {A} (l : list A) n v k :
  k < n → setitem_from l n v !! k = l !! k.
Proof.
  intros H. unfold setitem_from.
  destruct (decide (k < length l)) as [Hk|Hk].
  - rewrite lookup_app_l by (rewrite length_take; lia).
    by rewrite lookup_take_lt.
  - rewrite (lookup_ge_None_2 l) by lia.
    apply lookup_ge_None_2.
    rewrite length_app, length_take, length_replicate. lia.
Qed.

Lemma setitem_from_lookup_ge {A} (l : list A) n v k :
  n ≤ k → k < length l → setitem_from l n v !! k = Some v.
Proof.
  intros Hn Hk. unfold setitem_from.
  rewrite lookup_app_r by (rewrite length_take; lia).
  apply lookup_replicate_2. rewrite length_take. lia.
Qed.

Lemma length_slice_to {A} (l : list A) n :
  (0 ≤ n)%Z → (Z.of_nat (length (slice_to l n)) ≤ n)%Z.
Proof.
  intros H. unfold slice_to. rewrite decide_True by done.
  rewrite length_take. lia.
Qed.

(** Whatever [n] is, [l[:n]] is an initial segment of [l]. *)
Lemma slice_to_prefix {A} (l : list A) n : ∃ k, slice_to l n = take k l.
Proof. unfold slice_to. case_decide; eauto. Qed.

Lemma mask_filter_elem_of {A} (l : list A) keep x :
  x ∈ mask_filter l keep → x ∈ l.
Proof.
  revert keep. induction l as [|y l IH]; intros [|[] keep] H; simpl in H;
    try (by inversion H).
  - apply elem_of_cons in H as [->|H]; [left|right; eauto].
  - right; eauto.
Qed.

(** A row kept by the mask [p <$> l] satisfies [p]. *)
Lemma mask_filter_fmap {A} (p : A → bool) (l : list A) x :
  x ∈ mask_filter l (p <$> l) → p x = true.
Proof.
  induction l as [|y l IH]; simpl; intros H; [by inversion H|].
  destruct (p y) eqn:E; [|by auto].
  apply elem_of_cons in H as [->|H]; auto.
Qed.

(** ** Sample selection *)

Section SelectTrainingSamples.
Context `{Ext : Externals}.

Lemma matching_functional self proposal target g l m p n g' l' m' p' n' :
  matching self proposal target g l m p n →
  matching self proposal target g' l' m' p' n' →
  g = g' ∧ l = l' ∧ m = m' ∧ p = p' ∧ n = n'.
Proof.
  intros (iou & pnl & H1 & H2 & H3 & H4 & H5)
         (iou' & pnl' & H1' & H2' & H3' & H4' & H5').
  by simplify_eq.
Qed.

(** What a returning call has computed, step by step. *)
Lemma select_training_samples_inv self proposal target p m l r :
  select_training_samples self proposal target = Some (p, m, l, r) →
  ∃ gt_box gt_label matched_all pos_idx neg_idx matched_pos gt_pos
    proposal_pos label,
    matching self proposal target gt_box gt_label matched_all pos_idx neg_idx ∧
    index_select matched_all pos_idx = Some matched_pos ∧
    index_select gt_box matched_pos = Some gt_pos ∧
    index_select (cat proposal gt_box) pos_idx = Some proposal_pos ∧
    encode (box_coder self) gt_pos proposal_pos = Some r ∧
    index_select (cat proposal gt_box) (cat pos_idx neg_idx) = Some p ∧
    index_select matched_all (cat pos_idx neg_idx) = Some m ∧
    index_select gt_label m = Some label ∧
    l = Tensor (device label)
               (setitem_from (data label) (length (data pos_idx)) 0%Z).
Proof.
  unfold select_training_samples. intros H.
  destruct (item_box target "boxes") as [gt_box|] eqn:E1; [|done].
  destruct (item_int target "labels") as [gt_label|] eqn:E2; [|done].
  simpl in H.
  destruct (torch_cat proposal gt_box) as [combined|] eqn:Ec; [|done].
  apply torch_cat_Some in Ec as [_ ->]. simpl in H.
  destruct (box_iou _ _) as [iou|] eqn:E3; [|done]. simpl in H.
  destruct (proposal_matcher _ _) as [[pnl matched_all]|] eqn:E4; [|done].
  simpl in H.
  destruct (fg_bg_sampler _ _) as [[pos_idx neg_idx]|] eqn:E5; [|done].
  simpl in H.
  destruct (torch_cat pos_idx neg_idx) as [idx|] eqn:Ei; [|done].
  apply torch_cat_Some in Ei as [_ ->]. simpl in H.
  destruct (index_select matched_all pos_idx) as [mp|] eqn:E6; [|done].
  simpl in H.
  destruct (index_select gt_box mp) as [gp|] eqn:E7; [|done]. simpl in H.
  destruct (index_select (cat proposal gt_box) pos_idx) as [pp|] eqn:E8;
    [|done].
  simpl in H.
  destruct (encode (box_coder self) gp pp) as [rt|] eqn:E9; [|done].
  simpl in H.
  destruct (index_select (cat proposal gt_box) (cat pos_idx neg_idx))
    as [ps|] eqn:E10; [|done].
  simpl in H.
  destruct (index_select matched_all (cat pos_idx neg_idx)) as [ms|] eqn:E11;
    [|done].
  simpl in H.
  destruct (index_select gt_label ms) as [lb|] eqn:E12; [|done]. simpl in H.
  simplify_eq.
  exists gt_box, gt_label, matched_all, pos_idx, neg_idx, mp, gp, pp, lb.
  split; [by exists iou, pnl|]. done.
Qed.

(** A returning call has concatenated tensors of one device. *)
Lemma select_training_samples_devices self proposal target
    gt_box gt_label matched_all pos_idx neg_idx :
  matching self proposal target gt_box gt_label matched_all pos_idx neg_idx →
  is_Some (select_training_samples self proposal target) →
  device proposal = device gt_box ∧ device pos_idx = device neg_idx.
Proof.
  intros (iou & pnl & H1 & H2 & H3 & H4 & H5) [res H].
  unfold select_training_samples in H.
  rewrite H1, H2 in H. simpl in H.
  destruct (torch_cat proposal gt_box) as [combined|] eqn:Ec; [|done].
  apply torch_cat_Some in Ec as [Hd ->]. simpl in H.
  rewrite H3 in H. simpl in H. rewrite H4 in H. simpl in H.
  rewrite H5 in H. simpl in H.
  destruct (torch_cat pos_idx neg_idx) as [idx|] eqn:Ei; [|done].
  by apply torch_cat_Some in Ei as [Hi _].
Qed.

(** X18. A call returns when the tensors it concatenates share a device,
    every index tensor is on the cpu or on the device of the tensor it
    indexes, the sampled indices are positions of the combined proposals
    and of the matcher's array, the matched indices are positions of the
    ground truth, and [encode] accepts equally long arguments. *)
Lemma select_training_samples_returns self proposal target
    gt_box gt_label matched_all pos_idx neg_idx :
  matching self proposal target gt_box gt_label matched_all pos_idx neg_idx →
  device proposal = device gt_box →
  device pos_idx = device neg_idx →
  index_device_ok (device proposal) (device pos_idx) →
  index_device_ok (device matched_all) (device pos_idx) →
  index_device_ok (device gt_box) (device matched_all) →
  index_device_ok (device gt_label) (device matched_all) →
  Forall (valid_index (length (data proposal) + length (data gt_box)))
         (data pos_idx ++ data neg_idx) →
  Forall (valid_index (length (data matched_all)))
         (data pos_idx ++ data neg_idx) →
  Forall (valid_index (length (data gt_box))) (data matched_all) →
  Forall (valid_index (length (data gt_label))) (data matched_all) →
  (∀ g p, length (data g) = length (data p) →
          is_Some (encode (box_coder self) g p)) →
  is_Some (select_training_samples self proposal target).
Proof.
  intros (iou & pnl & H1 & H2 & H3 & H4 & H5) Dc Di Dp Dm Db Dl
         Hc Hm Hb Hl Henc.
  unfold select_training_samples.
  rewrite H1, H2. simpl.
  rewrite (proj2 (torch_cat_Some proposal gt_box _) (conj Dc eq_refl)). simpl.
  rewrite H3. simpl. rewrite H4. simpl. rewrite H5. simpl.
  rewrite (proj2 (torch_cat_Some pos_idx neg_idx _) (conj Di eq_refl)). simpl.
  apply Forall_app in Hc as Hc'. destruct Hc' as [Hcp _].
  apply Forall_app in Hm as Hm'. destruct Hm' as [Hmp _].
  destruct (index_select_is_Some matched_all pos_idx Dm Hmp) as [mp Emp].
  rewrite Emp. simpl.
  destruct (index_select_device _ _ _ Emp) as [Dmp _].
  destruct (index_select_is_Some gt_box mp) as [gp Egp].
  { by rewrite Dmp. }
  { eapply index_select_Forall; [exact Emp|exact Hb]. }
  rewrite Egp. simpl.
  destruct (index_select_is_Some (cat proposal gt_box) pos_idx) as [pp Epp].
  { done. }
  { simpl. by rewrite length_app. }
  rewrite Epp. simpl.
  destruct (Henc gp pp) as [rt Ert].
  { by rewrite (index_select_length _ _ _ Egp), (index_select_length _ _ _ Emp),
      (index_select_length _ _ _ Epp). }
  rewrite Ert. simpl.
  destruct (index_select_is_Some (cat proposal gt_box) (cat pos_idx neg_idx))
    as [ps Eps].
  { done. }
  { simpl. by rewrite length_app. }
  rewrite Eps. simpl.
  destruct (index_select_is_Some matched_all (cat pos_idx neg_idx))
    as [ms Ems]; [done|done|].
  rewrite Ems. simpl.
  destruct (index_select_device _ _ _ Ems) as [Dms _].
  destruct (index_select_is_Some gt_label ms) as [lb Elb].
  { by rewrite Dms. }
  { eapply index_select_Forall; [exact Ems|exact Hl]. }
  rewrite Elb. simpl. done.
Qed.

(** Ground-truth box [g] of [gt_box] is the box at position
    [len(proposal) + g] of the combined sequence. *)
Lemma getitem_gt_shift {A} (proposal gt_box : list A) g b :
  getitem gt_box g = Some b →
  ∃ j, normalize_index (length gt_box) g = Some j ∧
       (proposal ++ gt_box) !! (length proposal + j) = Some b.
Proof.
  unfold getitem. intros H.
  destruct (normalize_index (length gt_box) g) as [j|]; [|done].
  exists j. split; [done|]. simpl in H.
  by rewrite lookup_app_r, Nat.add_comm, Nat.add_sub by lia.
Qed.

(** C1, as amended. The matcher's array and the combined proposals are read
    at the same sampled positions, so the returned matched indices stay
    aligned with the returned proposals; their values are indices into the
    ground truth ([gt_box], [gt_label]), and ground-truth box [g] is the
    element [len(proposal) + g] of the combined sequence. *)
Theorem matched_idx_alignment self proposal target
    gt_box gt_label matched_all pos_idx neg_idx p m l r :
  matching self proposal target gt_box gt_label matched_all pos_idx neg_idx →
  select_training_samples self proposal target = Some (p, m, l, r) →
  (∀ k, data p !! k
        = (data pos_idx ++ data neg_idx) !! k
            ≫= getitem (data proposal ++ data gt_box)) ∧
  (∀ k, data m !! k
        = (data pos_idx ++ data neg_idx) !! k ≫= getitem (data matched_all)) ∧
  (∀ k g, data m !! k = Some g →
     ∃ c, getitem (data gt_label) g = Some c ∧
          data l !! k
          = Some (if decide (k < length (data pos_idx)) then c else 0%Z)) ∧
  (∃ gt_pos proposal_pos,
     encode (box_coder self) gt_pos proposal_pos = Some r ∧
     length (data gt_pos) = length (data pos_idx) ∧
     length (data proposal_pos) = length (data pos_idx) ∧
     ∀ k, k < length (data pos_idx) →
       data gt_pos !! k = data m !! k ≫= getitem (data gt_box) ∧
       data proposal_pos !! k = data p !! k) ∧
  (∀ g b, getitem (data gt_box) g = Some b →
     ∃ j, normalize_index (length (data gt_box)) g = Some j ∧
          (data proposal ++ data gt_box) !! (length (data proposal) + j)
          = Some b).
Proof.
  intros Hm H.
  apply select_training_samples_inv in H
    as (g' & l' & m' & p' & n' & mp & gp & pp & lb & Hm' & E6 & E7 & E8
        & E9 & E10 & E11 & E12 & ->).
  destruct (matching_functional _ _ _ _ _ _ _ _ _ _ _ _ _ Hm Hm')
    as (<- & <- & <- & <- & <-).
  pose proof (index_select_length _ _ _ E6) as L6.
  pose proof (index_select_length _ _ _ E7) as L7.
  pose proof (index_select_length _ _ _ E8) as L8.
  pose proof (index_select_length _ _ _ E12) as L12.
  split_and!.
  - intros k. apply (index_select_lookup _ _ _ k E10).
  - intros k. apply (index_select_lookup _ _ _ k E11).
  - intros k g Hk.
    pose proof (index_select_lookup _ _ _ k E12) as Hl.
    rewrite Hk in Hl. simpl in Hl.
    assert (k < length (data lb)) as Hlt
      by (rewrite L12; by eapply lookup_lt_Some).
    destruct (lookup_lt_is_Some_2 _ _ Hlt) as [c Hc].
    exists c. split; [congruence|]. simpl.
    case_decide.
    + by rewrite setitem_from_lookup_lt.
    + by rewrite setitem_from_lookup_ge by lia.
  - exists gp, pp. split_and!; [done|lia|lia|].
    intros k Hk.
    rewrite (index_select_lookup _ _ _ k E7), (index_select_lookup _ _ _ k E6),
      (index_select_lookup _ _ _ k E8), (index_select_lookup _ _ _ k E11),
      (index_select_lookup _ _ _ k E10).
    simpl. rewrite lookup_app_l by done.
    destruct (data pos_idx !! k); done.
  - intros g b. apply getitem_gt_shift.
Qed.

(** C2. The labels, the sampled proposals and the matched indices are as
    many as the samples drawn, and the regression targets are as many as
    the positive samples when the coder answers one row per proposal on
    the equally many boxes and proposals the code passes it. *)
Theorem sample_counts self proposal target
    gt_box gt_label matched_all pos_idx neg_idx p m l r :
  matching self proposal target gt_box gt_label matched_all pos_idx neg_idx →
  select_training_samples self proposal target = Some (p, m, l, r) →
  (encode_rowwise (box_coder self) →
   length (data r) = length (data pos_idx)) ∧
  length (data l) = length (data p) ∧
  length (data p) = length (data m) ∧
  length (data m) = length (data pos_idx) + length (data neg_idx).
Proof.
  intros Hm H.
  apply select_training_samples_inv in H
    as (g' & l' & m' & p' & n' & mp & gp & pp & lb & Hm' & E6 & E7 & E8
        & E9 & E10 & E11 & E12 & ->).
  destruct (matching_functional _ _ _ _ _ _ _ _ _ _ _ _ _ Hm Hm')
    as (<- & <- & <- & <- & <-).
  apply index_select_length in E6, E7, E8, E10, E11, E12.
  split_and!.
  - intros Henc. apply Henc in E9; lia.
  - simpl in *. rewrite length_setitem_from. lia.
  - lia.
  - simpl in *. rewrite length_app in E11. lia.
Qed.

(** C3. The sampled proposals are the positive ones followed by the
    negative ones, and every label from position [len(pos_idx)] on is 0,
    whatever [gt_label] holds at the matched index. *)
Theorem positives_first self proposal target
    gt_box gt_label matched_all pos_idx neg_idx p m l r :
  matching self proposal target gt_box gt_label matched_all pos_idx neg_idx →
  select_training_samples self proposal target = Some (p, m, l, r) →
  (∃ positive negative,
     index_select (cat proposal gt_box) pos_idx = Some positive ∧
     index_select (cat proposal gt_box) neg_idx = Some negative ∧
     data p = data positive ++ data negative ∧
     take (length (data pos_idx)) (data p) = data positive ∧
     drop (length (data pos_idx)) (data p) = data negative) ∧
  (∀ k, length (data pos_idx) ≤ k → k < length (data l) →
        data l !! k = Some 0%Z).
Proof.
  intros Hm H.
  destruct (select_training_samples_devices _ _ _ _ _ _ _ _ Hm (mk_is_Some _ _ H))
    as [_ Hd].
  apply select_training_samples_inv in H
    as (g' & l' & m' & p' & n' & mp & gp & pp & lb & Hm' & E6 & E7 & E8
        & E9 & E10 & E11 & E12 & ->).
  destruct (matching_functional _ _ _ _ _ _ _ _ _ _ _ _ _ Hm Hm')
    as (<- & <- & <- & <- & <-).
  split.
  - apply (index_select_cat _ _ _ _ Hd) in E10 as (ra & rb & Ha & Hb & Hp).
    exists ra, rb. split_and!; try done.
    + rewrite Hp, <- (index_select_length _ _ _ Ha). by rewrite take_app_length.
    + rewrite Hp, <- (index_select_length _ _ _ Ha). by rewrite drop_app_length.
  - simpl. intros k Hk Hlt. rewrite length_setitem_from in Hlt.
    by apply setitem_from_lookup_ge.
Qed.

End SelectTrainingSamples.

(** ** Detection *)

Section Detect.
Context `{Ext : Externals}.

(** What one returning iteration of the loop of [detect] has computed. *)
Lemma detect_class_inv self dev pred_score box_regression proposal image_shape
    image_class box label score :
  detect_class self dev pred_score box_regression proposal image_shape
               image_class = Some (box, label, score) →
  ∃ score0 box_delta0 box1 score1 box_delta1 box2 box3 score3 keep,
    column (rows pred_score) image_class = Some score0 ∧
    column (data box_regression) image_class = Some box_delta0 ∧
    masked_select proposal ((λ s, geb s (score_thresh self)) <$> score0)
      = Some box1 ∧
    masked_select (Tensor (device2 pred_score) score0)
                  ((λ s, geb s (score_thresh self)) <$> score0) = Some score1 ∧
    masked_select (Tensor (device box_regression) box_delta0)
                  ((λ s, geb s (score_thresh self)) <$> score0)
      = Some box_delta1 ∧
    decode (box_coder self) box_delta1 box1 = Some box2 ∧
    process_box box2 score1 image_shape (min_size self) = Some (box3, score3) ∧
    nms box3 score3 (nms_thresh self) = Some keep ∧
    index_select box3
      (Tensor (device keep) (slice_to (data keep) (num_detections self)))
      = Some box ∧
    index_select score3
      (Tensor (device keep) (slice_to (data keep) (num_detections self)))
      = Some score ∧
    label = full (length (slice_to (data keep) (num_detections self)))
                 (Z.of_nat image_class) dev.
Proof.
  unfold detect_class. intros H.
  destruct (column (rows pred_score) image_class) as [score0|] eqn:E1; [|done].
  destruct (column (data box_regression) image_class) as [bd0|] eqn:E2;
    [|done].
  simpl in H.
  destruct (masked_select proposal _) as [box1|] eqn:E3; [|done]. simpl in H.
  destruct (masked_select (Tensor (device2 pred_score) score0) _)
    as [score1|] eqn:E4; [|done].
  simpl in H.
  destruct (masked_select (Tensor (device box_regression) bd0) _)
    as [bd1|] eqn:E5; [|done].
  simpl in H.
  destruct (decode (box_coder self) bd1 box1) as [box2|] eqn:E6; [|done].
  simpl in H.
  destruct (process_box box2 score1 image_shape (min_size self))
    as [[box3 score3]|] eqn:E7; [|done].
  simpl in H.
  destruct (nms box3 score3 (nms_thresh self)) as [keep|] eqn:E8; [|done].
  simpl in H.
  destruct (index_select box3 _) as [box4|] eqn:E9; [|done]. simpl in H.
  destruct (index_select score3 _) as [score4|] eqn:E10; [|done]. simpl in H.
  simplify_eq.
  by exists score0, bd0, box1, score1, bd1, box2, box3, score3, keep.
Qed.

(** The three tensors of one class run in parallel, and the labels are the
    class. *)
Lemma detect_class_parallel self dev pred_score box_regression proposal
    image_shape image_class box label score :
  detect_class self dev pred_score box_regression proposal image_shape
               image_class = Some (box, label, score) →
  data label = replicate (length (data box)) (Z.of_nat image_class) ∧
  length (data score) = length (data box) ∧
  device label = dev.
Proof.
  intros H. apply detect_class_inv in H
    as (s0 & d0 & b1 & s1 & d1 & b2 & b3 & s3 & keep & _ & _ & _ & _ & _ & _
        & _ & _ & E9 & E10 & ->).
  apply index_select_length in E9, E10. simpl in *.
  by rewrite E9, E10.
Qed.

Lemma masked_select_fmap_elem_of {A} (p : A → bool) (t : tensor A) r x :
  masked_select t (p <$> data t) = Some r → x ∈ data r → p x = true.
Proof.
  unfold masked_select. intros H Hx. case_decide; [|done].
  simplify_eq. simpl in Hx. by eapply mask_filter_fmap.
Qed.

(** Every score a class keeps passed the threshold test. *)
Lemma detect_class_scores self dev pred_score box_regression proposal
    image_shape image_class box label score :
  process_box_filters →
  detect_class self dev pred_score box_regression proposal image_shape
               image_class = Some (box, label, score) →
  ∀ s, s ∈ data score → geb s (score_thresh self) = true.
Proof.
  intros Hpb H. apply detect_class_inv in H
    as (s0 & d0 & b1 & s1 & d1 & b2 & b3 & s3 & keep & _ & _ & _ & E4 & _ & _
        & E7 & _ & _ & E10 & _).
  intros s Hs.
  eapply index_select_elem_of in Hs; [|done].
  eapply Hpb in Hs; [|done].
  by apply (masked_select_fmap_elem_of (λ s, geb s (score_thresh self))
              (Tensor (device2 pred_score) s0) s1).
Qed.

(** What a returning call of [detect] has computed. *)
Lemma detect_inv self class_logit box_regression proposal image_shape result :
  detect self class_logit box_regression proposal image_shape = Some result →
  ∃ box_regression3 per_class boxes labels scores,
    reshape_N_4 (length (rows class_logit)) box_regression
      = Some box_regression3 ∧
    mapM (detect_class self (device2 class_logit)
            (Tensor2 (device2 class_logit) (ncols class_logit)
                     (softmax <$> rows class_logit))
            box_regression3 proposal image_shape)
         (seq 1 (ncols class_logit - 1)) = Some per_class ∧
    cat_list ((λ r, r.1.1) <$> per_class) = Some boxes ∧
    cat_list ((λ r, r.1.2) <$> per_class) = Some labels ∧
    cat_list ((λ r, r.2) <$> per_class) = Some scores ∧
    result = <["scores" := VFloat scores]>
               (<["labels" := VInt labels]> (<["boxes" := VBox boxes]> ∅)).
Proof.
  unfold detect. intros H.
  destruct (reshape_N_4 _ _) as [br|] eqn:E1; [|done]. simpl in H.
  destruct (mapM _ _) as [pc|] eqn:E2; [|done]. simpl in H.
  destruct (cat_list ((λ r, r.1.1) <$> pc)) as [b|] eqn:E3; [|done].
  simpl in H.
  destruct (cat_list ((λ r, r.1.2) <$> pc)) as [l|] eqn:E4; [|done].
  simpl in H.
  destruct (cat_list ((λ r, r.2) <$> pc)) as [s|] eqn:E5; [|done].
  simpl in H. simplify_eq.
  by exists br, pc, b, l, s.
Qed.

(** The converse: the steps of a call give its result. *)
Lemma detect_intro self class_logit box_regression proposal image_shape
    box_regression3 per_class boxes labels scores :
  reshape_N_4 (length (rows class_logit)) box_regression
    = Some box_regression3 →
  mapM (detect_class self (device2 class_logit)
          (Tensor2 (device2 class_logit) (ncols class_logit)
                   (softmax <$> rows class_logit))
          box_regression3 proposal image_shape)
       (seq 1 (ncols class_logit - 1)) = Some per_class →
  cat_list ((λ r, r.1.1) <$> per_class) = Some boxes →
  cat_list ((λ r, r.1.2) <$> per_class) = Some labels →
  cat_list ((λ r, r.2) <$> per_class) = Some scores →
  detect self class_logit box_regression proposal image_shape
  = Some (<["scores" := VFloat scores]>
            (<["labels" := VInt labels]> (<["boxes" := VBox boxes]> ∅))).
Proof.
  intros E1 E2 E3 E4 E5. unfold detect.
  rewrite E1. simpl. rewrite E2. simpl. rewrite E3. simpl.
  rewrite E4. simpl. by rewrite E5.
Qed.

Lemma cat_list_data {A} (ts : list (tensor A)) t :
  cat_list ts = Some t → data t = concat (data <$> ts).
Proof. destruct ts; intros H; simpl in H; [done|]. by simplify_eq. Qed.

Lemma detect_lookup_boxes boxes labels scores :
  (<["scores" := VFloat scores]>
     (<["labels" := VInt labels]> (<["boxes" := VBox boxes]> ∅))
   : gmap string value) !! "boxes" = Some (VBox boxes).
Proof. by simplify_map_eq. Qed.

Lemma detect_lookup_labels boxes labels scores :
  (<["scores" := VFloat scores]>
     (<["labels" := VInt labels]> (<["boxes" := VBox boxes]> ∅))
   : gmap string value) !! "labels" = Some (VInt labels).
Proof. by simplify_map_eq. Qed.

Lemma detect_lookup_scores boxes labels scores :
  (<["scores" := VFloat scores]>
     (<["labels" := VInt labels]> (<["boxes" := VBox boxes]> ∅))
   : gmap string value) !! "scores" = Some (VFloat scores).
Proof. by simplify_map_eq. Qed.

(** C5. Every score in the result of [detect] is at or above the score
    threshold, and the result holds one box, one label and one score per
    detection. *)
Theorem detect_scores_above_threshold self class_logit box_regression proposal
    image_shape result :
  process_box_filters →
  detect self class_logit box_regression proposal image_shape = Some result →
  ∃ boxes labels scores,
    result !! "boxes" = Some (VBox boxes) ∧
    result !! "labels" = Some (VInt labels) ∧
    result !! "scores" = Some (VFloat scores) ∧
    length (data boxes) = length (data scores) ∧
    length (data labels) = length (data scores) ∧
    ∀ s, s ∈ data scores → geb s (score_thresh self) = true.
Proof.
  intros Hpb H.
  apply detect_inv in H as (br & pc & b & l & s & _ & Hpc & Eb & El & Es & ->).
  exists b, l, s.
  rewrite detect_lookup_boxes, detect_lookup_labels, detect_lookup_scores.
  apply cat_list_data in Eb, El, Es. rewrite Eb, El, Es.
  apply mapM_Some in Hpc.
  assert (Forall (λ r : tensor Box * tensor Z * tensor F,
            length (data r.1.1) = length (data r.2) ∧
            length (data r.1.2) = length (data r.2) ∧
            ∀ x, x ∈ data r.2 → geb x (score_thresh self) = true) pc) as Hall.
  { clear -Hpb Hpc. induction Hpc as [|c [[bx lb] sc] cs pc Hc _ IH];
      constructor; [|done].
    pose proof (detect_class_parallel _ _ _ _ _ _ _ _ _ _ Hc) as (Hl & Hs & _).
    simpl. split_and!.
    - done.
    - by rewrite Hl, length_replicate.
    - intros x Hx.
      eapply detect_class_scores; [exact Hpb|exact Hc|exact Hx]. }
  clear -Hall. split_and!; try done.
  - induction Hall as [|[[bx lb] sc] pc (H1 & _ & _) _ IH]; [done|].
    csimpl in *. rewrite !length_app. lia.
  - induction Hall as [|[[bx lb] sc] pc (_ & H2 & _) _ IH]; [done|].
    csimpl in *. rewrite !length_app. lia.
  - intros x Hx. induction Hall as [|[[bx lb] sc] pc (_ & _ & H3) _ IH].
    + by inversion Hx.
    + csimpl in Hx. apply elem_of_app in Hx as [Hx|Hx]; auto.
Qed.

End Detect.

(** ** Non-maximum suppression *)

Section Nms.
Context `{Ext : Externals}.
Variable iou : Box → Box → F.
Variable cmp : F → F → bool.

Lemma detect_class_nms self dev pred_score box_regression proposal image_shape
    image_class box label score :
  nms_contract iou cmp →
  detect_class self dev pred_score box_regression proposal image_shape
               image_class = Some (box, label, score) →
  (∀ p q b1 b2, p ≠ q → data box !! p = Some b1 → data box !! q = Some b2 →
                apart iou cmp (nms_thresh self) b1 b2) ∧
  ((0 ≤ num_detections self)%Z →
   (Z.of_nat (length (data box)) ≤ num_detections self)%Z).
Proof.
  intros Hnms H. apply detect_class_inv in H
    as (s0 & d0 & b1' & s1 & d1 & b2' & b3 & s3 & keep & _ & _ & _ & _ & _ & _
        & _ & E8 & E9 & _ & _).
  split.
  - intros p q b1 b2 Hpq Hp Hq.
    rewrite (index_select_lookup _ _ _ p E9) in Hp.
    rewrite (index_select_lookup _ _ _ q E9) in Hq. simpl in Hp, Hq.
    destruct (slice_to_prefix (data keep) (num_detections self)) as [n Hn].
    rewrite Hn in Hp, Hq.
    destruct (take n (data keep) !! p) as [i|] eqn:Ei; [|done].
    destruct (take n (data keep) !! q) as [j|] eqn:Ej; [|done].
    apply lookup_take_Some in Ei as [Ei _], Ej as [Ej _].
    by eapply (Hnms _ _ _ _ E8 p q i j).
  - intros Hnd. rewrite (index_select_length _ _ _ E9). simpl.
    by apply length_slice_to.
Qed.

(** Labels of the classes other than [c] do not count for [c]. *)
Lemma count_class_replicate c n c' :
  count_class c (replicate n c') = if decide (c' = c) then n else 0.
Proof.
  unfold count_class. induction n as [|n IH]; simpl.
  - by destruct (decide (c' = c)).
  - rewrite filter_cons. destruct (decide (c' = c)); simpl; by rewrite IH.
Qed.

Lemma count_class_app c l1 l2 :
  count_class c (l1 ++ l2) = count_class c l1 + count_class c l2.
Proof. unfold count_class. by rewrite filter_app, length_app. Qed.

Lemma count_class_not_elem_of c l : c ∉ l → count_class c l = 0.
Proof.
  unfold count_class. induction l as [|x l IH]; [done|].
  intros [Hx Hl]%not_elem_of_cons. rewrite filter_cons.
  destruct (decide (x = c)); [congruence|auto].
Qed.

(** The per-class results, concatenated in the order of the classes; the
    bound on the per-class counts is the one the classes have when
    [bounded] holds. *)
Lemma per_class_concat (R : Box → Box → Prop) (bounded : Prop) (bound : nat)
    (cs : list nat) (pc : list (tensor Box * tensor Z * tensor F)) :
  NoDup cs →
  Forall2 (λ c r,
    data r.1.2 = replicate (length (data r.1.1)) (Z.of_nat c) ∧
    (∀ p q b1 b2, p ≠ q → data r.1.1 !! p = Some b1 →
                  data r.1.1 !! q = Some b2 → R b1 b2) ∧
    (bounded → length (data r.1.1) ≤ bound)) cs pc →
  separated_per_class R
    (concat (data <$> ((λ r, r.1.1) <$> pc)))
    (concat (data <$> ((λ r, r.1.2) <$> pc))) ∧
  (bounded →
   ∀ c, count_class c (concat (data <$> ((λ r, r.1.2) <$> pc))) ≤ bound) ∧
  (∀ c, Z.of_nat c ∈ concat (data <$> ((λ r, r.1.2) <$> pc)) → c ∈ cs).
Proof.
  intros Hnd HF. induction HF as [|c0 [[bx lb] sc] cs pc (Hl & HR & Hb) HF IH].
  - csimpl. split_and!.
    + intros p q b1 b2 c _ Hp. by rewrite lookup_nil in Hp.
    + intros _ c. unfold count_class. simpl. lia.
    + intros c Hc. by inversion Hc.
  - apply NoDup_cons in Hnd as [Hc0 Hnd].
    destruct (IH Hnd) as (IH1 & IH2 & IH3). clear IH.
    csimpl in *. rewrite Hl.
    split_and!.
    + assert (∀ i j c, i < length (data bx) → ¬ j < length (data bx) →
                (replicate (length (data bx)) (Z.of_nat c0) ++
                 concat (data <$> ((λ r, r.1.2) <$> pc))) !! i = Some c →
                (replicate (length (data bx)) (Z.of_nat c0) ++
                 concat (data <$> ((λ r, r.1.2) <$> pc))) !! j = Some c →
                False) as Hcross.
      { intros i j c Hi Hj Hli Hlj.
        rewrite lookup_app_l in Hli by (rewrite length_replicate; lia).
        rewrite lookup_app_r in Hlj by (rewrite length_replicate; lia).
        apply lookup_replicate in Hli as [-> _].
        by apply list_elem_of_lookup_2, IH3 in Hlj. }
      intros p q b1 b2 c Hpq Hp Hq Hlp Hlq.
      destruct (decide (p < length (data bx))) as [Hp'|Hp'],
               (decide (q < length (data bx))) as [Hq'|Hq'].
      * rewrite lookup_app_l in Hp, Hq by lia. by apply (HR p q).
      * by destruct (Hcross p q c).
      * by destruct (Hcross q p c).
      * rewrite lookup_app_r in Hp by lia.
        rewrite lookup_app_r in Hq by lia.
        rewrite lookup_app_r in Hlp by (rewrite length_replicate; lia).
        rewrite lookup_app_r in Hlq by (rewrite length_replicate; lia).
        rewrite length_replicate in Hlp, Hlq.
        eapply (IH1 (p - length (data bx)) (q - length (data bx)));
          [lia|done..].
    + intros Hbd c. rewrite count_class_app, count_class_replicate.
      case_decide as Hc; [|by apply IH2].
      subst c. specialize (Hb Hbd).
      rewrite count_class_not_elem_of; [lia|].
      intros Hx. by apply IH3 in Hx.
    + intros c [Hc|Hc]%elem_of_app.
      * apply elem_of_replicate in Hc as [Hc _].
        apply Nat2Z.inj in Hc as ->. left.
      * right. by apply IH3.
Qed.

(** C6, as amended. With an [nms] that keeps no box whose IoU with an
    earlier kept box exceeds the threshold, [detect] returns no two
    detections of one class whose IoU exceeds the threshold, whatever
    [num_detections] is, and at most [num_detections] detections per class
    when that bound is not negative. *)
Theorem detect_nms_per_class self class_logit box_regression proposal
    image_shape result :
  nms_contract iou cmp →
  detect self class_logit box_regression proposal image_shape = Some result →
  ∃ boxes labels,
    result !! "boxes" = Some (VBox boxes) ∧
    result !! "labels" = Some (VInt labels) ∧
    separated_per_class (apart iou cmp (nms_thresh self)) (data boxes) (data labels) ∧
    ((0 ≤ num_detections self)%Z →
     ∀ c, (Z.of_nat (count_class c (data labels)) ≤ num_detections self)%Z).
Proof.
  intros Hnms H.
  apply detect_inv in H as (br & pc & b & l & s & _ & Hpc & Eb & El & Es & ->).
  exists b, l. rewrite detect_lookup_boxes, detect_lookup_labels.
  apply cat_list_data in Eb, El. rewrite Eb, El.
  apply mapM_Some in Hpc.
  destruct (per_class_concat (apart iou cmp (nms_thresh self))
              (0 ≤ num_detections self)%Z
              (Z.to_nat (num_detections self))
              (seq 1 (ncols class_logit - 1)) pc) as (H1 & H2 & _).
  - apply NoDup_seq.
  - eapply Forall2_impl; [exact Hpc|].
    intros c [[bx lb] sc] Hc. simpl.
    pose proof (detect_class_parallel _ _ _ _ _ _ _ _ _ _ Hc) as (Hl & _ & _).
    pose proof (detect_class_nms _ _ _ _ _ _ _ _ _ _ Hnms Hc) as (HR & Hb).
    split_and!; [done|done|]. intros Hnd. specialize (Hb Hnd). lia.
  - split_and!; [done|done|done|].
    intros Hnd c. specialize (H2 Hnd c). lia.
Qed.

End Nms.

(** ** The calls of a run *)

Lemma run_bind {A B} (m : M A) (f : A → M B) y calls :
  run (m ≫= f) = Some (y, calls) →
  ∃ x c1 c2, run m = Some (x, c1) ∧ run (f x) = Some (y, c2)
             ∧ calls = c1 ++ c2.
Proof.
  unfold mbind, M_bind. simpl. intros H.
  destruct (run m) as [[x c1]|]; [|done].
  destruct (run (f x)) as [[y' c2]|] eqn:E; [|done].
  simplify_eq. by exists x, c1, c2.
Qed.

Lemma run_ret {A} (x y : A) calls :
  run (mret x) = Some (y, calls) → y = x ∧ calls = [].
Proof. unfold mret, M_ret. simpl. intros H. by simplify_eq. Qed.

Lemma run_lift {A} (o : option A) y calls :
  run (lift o) = Some (y, calls) → o = Some y ∧ calls = [].
Proof. unfold lift. simpl. intros H. destruct o; simpl in H; by simplify_eq. Qed.

Lemma run_invoke {A} c (o : option A) y calls :
  run (invoke c o) = Some (y, calls) → o = Some y ∧ calls = [c].
Proof.
  unfold invoke. simpl. intros H. destruct o; simpl in H; by simplify_eq.
Qed.

(** ** Forward *)

Section Forward.
Context `{Ext : Externals}.

(** C9. In inference mode [forward] never reads [target]. *)
Theorem forward_inference_ignores_target self feature proposal image_shape
    target target' :
  train_mode self = false →
  forward self feature proposal image_shape target
  = forward self feature proposal image_shape target'.
Proof.
  intros H. unfold forward. rewrite H. reflexivity.
Qed.

(** The two early returns of the mask branch. *)
Lemma forward_train_early_return self feature proposal image_shape target
    pool predictor p m l r box_feature class_logit box_regression
    classifier_loss box_reg_loss :
  train_mode self = true →
  mask_roi_pool self = Some pool →
  mask_predictor self = Some predictor →
  select_training_samples self proposal target = Some (p, m, l, r) →
  length (data r) = 0 →
  box_roi_pool self feature p image_shape = Some box_feature →
  box_predictor self box_feature = Some (class_logit, box_regression) →
  detection_loss class_logit box_regression l r
    = Some (classifier_loss, box_reg_loss) →
  run (forward self feature proposal image_shape target)
  = Some ((∅, <["roi_mask_loss" := torch_tensor 0]>
                (<["roi_box_loss" := box_reg_loss]>
                   (<["roi_classifier_loss" := classifier_loss]> ∅))),
          [CallBoxRoiPool; CallBoxPredictor; CallDetectionLoss]).
Proof.
  intros Ht Hp Hq Hs Hr Hb Hc Hd.
  unfold forward. rewrite Ht, Hp, Hq, Hs.
  cbn. rewrite Hb. cbn. rewrite Hc. cbn. rewrite Hd. cbn.
  rewrite Hr, take_0. cbn. reflexivity.
Qed.

Lemma forward_inference_early_return self feature proposal image_shape
    target pool predictor box_feature class_logit box_regression result boxes :
  train_mode self = false →
  mask_roi_pool self = Some pool →
  mask_predictor self = Some predictor →
  box_roi_pool self feature proposal image_shape = Some box_feature →
  box_predictor self box_feature = Some (class_logit, box_regression) →
  detect self class_logit box_regression proposal image_shape = Some result →
  result !! "boxes" = Some (VBox boxes) →
  length (data boxes) = 0 →
  run (forward self feature proposal image_shape target)
  = Some ((<["masks" := VMask (torch_empty 28 28)]> result, ∅),
          [CallBoxRoiPool; CallBoxPredictor]).
Proof.
  intros Ht Hp Hq Hb Hc Hd Hr Hl.
  unfold forward. rewrite Ht, Hp, Hq.
  cbn. rewrite Hb. cbn. rewrite Hc. cbn. rewrite Hd. cbn.
  unfold item_box. rewrite Hr. cbn. rewrite Hl. cbn. reflexivity.
Qed.

(** C7. Training, mask branch on, no regression target: [forward] returns
    after the detection loss with [roi_mask_loss] the integer zero, having
    called neither the mask pooler nor the mask predictor. *)
Theorem forward_train_no_positive self feature proposal image_shape target
    pool predictor p m l r box_feature class_logit box_regression
    classifier_loss box_reg_loss :
  train_mode self = true →
  mask_roi_pool self = Some pool →
  mask_predictor self = Some predictor →
  select_training_samples self proposal target = Some (p, m, l, r) →
  length (data r) = 0 →
  box_roi_pool self feature p image_shape = Some box_feature →
  box_predictor self box_feature = Some (class_logit, box_regression) →
  detection_loss class_logit box_regression l r
    = Some (classifier_loss, box_reg_loss) →
  ∃ losses calls,
    run (forward self feature proposal image_shape target)
    = Some ((∅, losses), calls) ∧
    losses !! "roi_mask_loss" = Some (torch_tensor 0) ∧
    item (torch_tensor 0) = SInt 0 ∧
    calls = [CallBoxRoiPool; CallBoxPredictor; CallDetectionLoss] ∧
    existsb mask_call calls = false.
Proof.
  intros Ht Hp Hq Hs Hr Hb Hc Hd.
  eexists _, _. split.
  - by eapply forward_train_early_return.
  - split_and!; [by simplify_map_eq|done|done|done].
Qed.

(** C8. Inference, mask branch on, no detection: [forward] returns after
    [detect] with [masks] an empty tensor of shape [(0, 28, 28)], having
    called neither the mask pooler nor the mask predictor. *)
Theorem forward_inference_no_detection self feature proposal image_shape
    target pool predictor box_feature class_logit box_regression result boxes :
  train_mode self = false →
  mask_roi_pool self = Some pool →
  mask_predictor self = Some predictor →
  box_roi_pool self feature proposal image_shape = Some box_feature →
  box_predictor self box_feature = Some (class_logit, box_regression) →
  detect self class_logit box_regression proposal image_shape = Some result →
  result !! "boxes" = Some (VBox boxes) →
  length (data boxes) = 0 →
  ∃ masks calls,
    run (forward self feature proposal image_shape target)
    = Some ((<["masks" := VMask masks]> result, ∅), calls) ∧
    shape3 masks = (0, 28, 28) ∧
    calls = [CallBoxRoiPool; CallBoxPredictor] ∧
    existsb mask_call calls = false.
Proof.
  intros Ht Hp Hq Hb Hc Hd Hr Hl.
  exists (torch_empty 28 28), [CallBoxRoiPool; CallBoxPredictor]. split.
  - by eapply forward_inference_early_return.
  - done.
Qed.

Ltac run_inv :=
  repeat match goal with
    | H : run (mret _) = Some _ |- _ => apply run_ret in H as [? ?]
    | H : run (lift _) = Some _ |- _ => apply run_lift in H as [? ?]
    | H : run (invoke _ _) = Some _ |- _ => apply run_invoke in H as [? ?]
    | H : run (_ ≫= _) = Some _ |- _ =>
        apply run_bind in H as (? & ? & ? & ? & ? & ?)
    | H : run (match ?x with (_, _) => _ end) = Some _ |- _ => destruct x
    | H : Some _ = Some _ |- _ => apply (inj Some) in H
    | H : (_, _) = (_, _) |- _ => apply pair_equal_spec in H as [? ?]
    | _ => progress subst
    end.

(** With one of the two mask attributes unset, [forward] skips the mask
    branch. *)
Lemma forward_mask_branch_off self feature proposal image_shape target
    result losses calls :
  mask_roi_pool self = None ∨ mask_predictor self = None →
  run (forward self feature proposal image_shape target)
  = Some ((result, losses), calls) →
  result !! "masks" = None ∧
  losses !! "roi_mask_loss" = None ∧
  existsb mask_call calls = false.
Proof.
  intros Hoff H. unfold forward in H.
  destruct (train_mode self).
  - run_inv.
    destruct Hoff as [Hoff|Hoff]; rewrite Hoff in *;
      [|destruct (mask_roi_pool self)]; run_inv;
      (split_and!; [done|by simplify_map_eq|done]).
  - run_inv.
    match goal with
    | H : detect _ _ _ _ _ = Some _ |- _ =>
        apply detect_inv in H as (br & pc & b & l & s & _ & _ & _ & _ & _ & ->)
    end.
    destruct Hoff as [Hoff|Hoff]; rewrite Hoff in *;
      [|destruct (mask_roi_pool self)]; run_inv;
      (split_and!; [by simplify_map_eq|done|done]).
Qed.

(** Inference without the mask branch: pooling, prediction, [detect]. *)
Lemma forward_inference_mask_off self feature proposal image_shape target
    box_feature class_logit box_regression result :
  train_mode self = false →
  mask_roi_pool self = None ∨ mask_predictor self = None →
  box_roi_pool self feature proposal image_shape = Some box_feature →
  box_predictor self box_feature = Some (class_logit, box_regression) →
  detect self class_logit box_regression proposal image_shape = Some result →
  run (forward self feature proposal image_shape target)
  = Some ((result, ∅), [CallBoxRoiPool; CallBoxPredictor]).
Proof.
  intros Ht Hoff Hb Hc Hd. unfold forward. rewrite Ht.
  cbn. rewrite Hb. cbn. rewrite Hc. cbn. rewrite Hd. cbn.
  destruct Hoff as [-> | ->]; [done|].
  by destruct (mask_roi_pool self).
Qed.

(** X6. The labels [detect] builds live on the device of [class_logit]. *)
Lemma detect_labels_device self class_logit box_regression proposal
    image_shape result :
  detect self class_logit box_regression proposal image_shape = Some result →
  ∃ labels, result !! "labels" = Some (VInt labels) ∧
            device labels = device2 class_logit.
Proof.
  intros H.
  apply detect_inv in H as (br & pc & b & l & s & _ & Hpc & _ & El & _ & ->).
  exists l. split; [by simplify_map_eq|].
  apply mapM_Some in Hpc.
  destruct Hpc as [|c [[bx lb] sc] cs pc Hc _]; [done|].
  simpl in El. simplify_eq. simpl.
  by apply detect_class_parallel in Hc as (_ & _ & ->).
Qed.

(** C10. [__init__] leaves both mask attributes unset, and as long as one
    of them stays unset [forward] returns no [masks] entry and no
    [roi_mask_loss], and calls no mask module. *)
Theorem forward_as_constructed box_roi_pool box_predictor fg_iou_thresh
    bg_iou_thresh num_samples positive_fraction reg_weights score_thresh
    nms_thresh num_detections train_mode pool predictor feature proposal
    image_shape target result losses calls :
  pool = None ∨ predictor = None →
  run (forward
         (set_mask_branch
            (__init__ box_roi_pool box_predictor fg_iou_thresh bg_iou_thresh
                  num_samples positive_fraction reg_weights score_thresh
                  nms_thresh num_detections train_mode)
            pool predictor)
         feature proposal image_shape target)
  = Some ((result, losses), calls) →
  mask_roi_pool
    (__init__ box_roi_pool box_predictor fg_iou_thresh bg_iou_thresh num_samples
          positive_fraction reg_weights score_thresh nms_thresh
          num_detections train_mode) = None ∧
  mask_predictor
    (__init__ box_roi_pool box_predictor fg_iou_thresh bg_iou_thresh num_samples
          positive_fraction reg_weights score_thresh nms_thresh
          num_detections train_mode) = None ∧
  set_mask_branch
    (__init__ box_roi_pool box_predictor fg_iou_thresh bg_iou_thresh num_samples
          positive_fraction reg_weights score_thresh nms_thresh
          num_detections train_mode) None None
  = __init__ box_roi_pool box_predictor fg_iou_thresh bg_iou_thresh num_samples
         positive_fraction reg_weights score_thresh nms_thresh
         num_detections train_mode ∧
  result !! "masks" = None ∧
  losses !! "roi_mask_loss" = None ∧
  existsb mask_call calls = false.
Proof.
  intros Hoff H. split_and!; [done|done|done|..];
    by eapply forward_mask_branch_off in H as (? & ? & ?).
Qed.

End Forward.

(** ** The reference instance meets the contracts *)

Section ReferenceContracts.
#[local] Existing Instance reference.

Lemma reference_rowwise_length {A B C} (f : A → B → option C) a b r :
  Reference.rowwise f a b = Some r → length (data r) = length (data b).
Proof.
  unfold Reference.rowwise. intros H. case_decide as Hlen; [|done].
  destruct (mapM _ _) as [k|] eqn:E; [|done]. simpl in H. simplify_eq.
  apply length_mapM in E. simpl. rewrite <- E, length_zip. lia.
Qed.

Lemma reference_encode_rowwise w : encode_rowwise (Reference.BoxCoder w).
Proof.
  intros g p r _ H.
  exact (reference_rowwise_length (Reference.encode1 w) _ _ _ H).
Qed.

Lemma reference_process_box_filters : process_box_filters.
Proof.
  intros b s sh ms b' s' H x Hx. simpl in H.
  unfold Reference.process_box, masked_select in H. simpl in H.
  repeat case_decide; simpl in H; try done.
  simplify_eq. simpl in Hx. by eapply mask_filter_elem_of.
Qed.

(** A box that [greedy] keeps overlaps none of the boxes kept before the
    scan reached it. *)
Lemma greedy_apart_kept b thr order kept x k :
  x ∈ Reference.greedy b thr order kept → k ∈ kept →
  Reference.overlaps b thr k x = false.
Proof.
  revert kept. induction order as [|i order IH]; intros kept Hx Hk; simpl in Hx.
  - by inversion Hx.
  - destruct (existsb _ kept) eqn:E.
    + by apply IH with kept.
    + apply elem_of_cons in Hx as [->|Hx].
      * destruct (Reference.overlaps b thr k i) eqn:Ek; [|done].
        assert (existsb (λ k, Reference.overlaps b thr k i) kept = true)
          as Hex; [|congruence].
        apply existsb_exists. exists k. by rewrite <- list_elem_of_In.
      * apply IH with (i :: kept); [done|by right].
Qed.

Lemma greedy_apart b thr order kept p q i j :
  p < q →
  Reference.greedy b thr order kept !! p = Some i →
  Reference.greedy b thr order kept !! q = Some j →
  Reference.overlaps b thr i j = false.
Proof.
  revert kept p q. induction order as [|x order IH]; intros kept p q Hpq Hp Hq;
    simpl in Hp, Hq; [done|].
  destruct (existsb _ kept); [by eapply IH|].
  destruct q as [|q]; [lia|]. simpl in Hq.
  destruct p as [|p]; simpl in Hp.
  - simplify_eq.
    eapply greedy_apart_kept; [by eapply list_elem_of_lookup_2|by left].
  - eapply (IH _ p q); [lia|done..].
Qed.

Lemma getitem_of_nat {A} (l : list A) (i : nat) x :
  getitem l (Z.of_nat i) = Some x → l !! i = Some x.
Proof.
  unfold getitem, normalize_index. intros H.
  case_decide; [|case_decide; [lia|done]].
  simpl in H. by rewrite Nat2Z.id in H.
Qed.

Lemma reference_iou_sym a b : Reference.iou a b = Reference.iou b a.
Proof.
  unfold Reference.iou. apply Qred_complete.
  rewrite (Q.min_comm (Reference.x2 a)), (Q.max_comm (Reference.x1 a)),
    (Q.min_comm (Reference.y2 a)), (Q.max_comm (Reference.y1 a)),
    (Qplus_comm (Reference.area a)).
  reflexivity.
Qed.

Lemma overlaps_false (b : list Reference.box) thr i j bi bj :
  b !! i = Some bi → b !! j = Some bj →
  Reference.overlaps b thr i j = false →
  Reference.gt (Reference.iou bi bj) thr = false.
Proof. unfold Reference.overlaps. by intros -> ->. Qed.

(** The greedy suppression keeps no two boxes whose IoU is greater than
    the threshold. *)
Lemma reference_nms_contract : nms_contract Reference.iou Reference.gt.
Proof.
  intros b s thr keep H p q i j bi bj Hpq Hp Hq Hi Hj.
  simpl in H. unfold Reference.nms in H. case_decide; [|done].
  simplify_eq. simpl in Hp, Hq.
  rewrite list_lookup_fmap in Hp, Hq.
  destruct (Reference.greedy _ _ _ _ !! p) as [i'|] eqn:Ei; [|done].
  destruct (Reference.greedy _ _ _ _ !! q) as [j'|] eqn:Ej; [|done].
  simpl in Hp, Hq. simplify_eq.
  apply getitem_of_nat in Hi, Hj.
  destruct (decide (p < q)) as [Hlt|Hge].
  - pose proof (greedy_apart _ _ _ _ _ _ _ _ Hlt Ei Ej) as Ho.
    exact (overlaps_false _ _ _ _ _ _ Hi Hj Ho).
  - assert (q < p) as Hlt by lia.
    pose proof (greedy_apart _ _ _ _ _ _ _ _ Hlt Ej Ei) as Ho.
    unfold apart. rewrite reference_iou_sym.
    exact (overlaps_false _ _ _ _ _ _ Hj Hi Ho).
Qed.

Lemma example_matching :
  matching Examples.trainer Examples.proposal Examples.target
           Examples.gt_box Examples.gt_label Examples.matched_all
           Examples.pos_idx Examples.neg_idx.
Proof.
  exists Examples.iou_matrix, Examples.pos_neg_label.
  split_and!; vm_compute; reflexivity.
Qed.

Lemma example_select :
  select_training_samples Examples.trainer Examples.proposal Examples.target
  = Some (Examples.sampled_proposal, Examples.sampled_matched_idx,
          Examples.sampled_label, Examples.regression_target).
Proof. vm_compute. reflexivity. Qed.

End ReferenceContracts.

(** ** The claims on the example inputs *)

Section OnExamples.
#[local] Existing Instance reference.
Import Examples.

(** C1, as amended, on the example. *)
Lemma matched_idx_alignment_witness :
  (∀ k, data sampled_proposal !! k
        = (data pos_idx ++ data neg_idx) !! k
            ≫= getitem (data proposal ++ data gt_box)) ∧
  (∀ k, data sampled_matched_idx !! k
        = (data pos_idx ++ data neg_idx) !! k ≫= getitem (data matched_all)) ∧
  (∀ k g, data sampled_matched_idx !! k = Some g →
     ∃ c, getitem (data gt_label) g = Some c ∧
          data sampled_label !! k
          = Some (if decide (k < length (data pos_idx)) then c else 0%Z)) ∧
  (∃ gt_pos proposal_pos,
     encode (box_coder trainer) gt_pos proposal_pos = Some regression_target ∧
     length (data gt_pos) = length (data pos_idx) ∧
     length (data proposal_pos) = length (data pos_idx) ∧
     ∀ k, k < length (data pos_idx) →
       data gt_pos !! k = data sampled_matched_idx !! k ≫= getitem (data gt_box) ∧
       data proposal_pos !! k = data sampled_proposal !! k) ∧
  (∀ g b, getitem (data gt_box) g = Some b →
     ∃ j, normalize_index (length (data gt_box)) g = Some j ∧
          (data proposal ++ data gt_box) !! (length (data proposal) + j)
          = Some b).
Proof.
  exact (matched_idx_alignment trainer proposal target gt_box gt_label
           matched_all pos_idx neg_idx sampled_proposal sampled_matched_idx
           sampled_label regression_target example_matching example_select).
Defined.

(** C1 as stated fails: the first sampled proposal has matched index 0;
    [gt_box[0]] is the ground-truth box, while position 0 of the combined
    sequence is the first proposal. *)
Lemma matched_idx_into_combined_counterexample :
  ¬ matched_idx_into_combined trainer proposal target.
Proof.
  intros H.
  specialize (H gt_box sampled_proposal sampled_matched_idx sampled_label
                regression_target eq_refl example_select 0 0%Z eq_refl).
  vm_compute in H. discriminate H.
Qed.

(** C2 on the example. *)
Lemma sample_counts_witness :
  encode_rowwise (box_coder trainer) ∧
  length (data regression_target) = length (data pos_idx) ∧
  length (data sampled_label) = length (data sampled_proposal) ∧
  length (data sampled_proposal) = length (data sampled_matched_idx) ∧
  length (data sampled_matched_idx)
  = length (data pos_idx) + length (data neg_idx).
Proof.
  split; [apply reference_encode_rowwise|].
  destruct (sample_counts trainer proposal target gt_box gt_label matched_all
              pos_idx neg_idx sampled_proposal sampled_matched_idx
              sampled_label regression_target example_matching example_select)
    as (Hr & Hl & Hp & Hm).
  split_and!; [apply Hr, reference_encode_rowwise|exact Hl|exact Hp|exact Hm].
Defined.

(** C3 on the example. *)
Lemma positives_first_witness :
  (∃ positive negative,
     index_select (cat proposal gt_box) pos_idx = Some positive ∧
     index_select (cat proposal gt_box) neg_idx = Some negative ∧
     data sampled_proposal = data positive ++ data negative ∧
     take (length (data pos_idx)) (data sampled_proposal) = data positive ∧
     drop (length (data pos_idx)) (data sampled_proposal) = data negative) ∧
  (∀ k, length (data pos_idx) ≤ k → k < length (data sampled_label) →
        data sampled_label !! k = Some 0%Z).
Proof.
  exact (positives_first trainer proposal target gt_box gt_label matched_all
           pos_idx neg_idx sampled_proposal sampled_matched_idx sampled_label
           regression_target example_matching example_select).
Defined.

(** The negative sample of the example is matched to ground-truth box 0,
    of class 2, and labelled 0. *)
Example negative_label_forced :
  data sampled_matched_idx !! 2 ≫= getitem (data gt_label) = Some 2%Z ∧
  data sampled_label !! 2 = Some 0%Z.
Proof. split; reflexivity. Qed.

Lemma example_detect :
  detect detector class_logit box_regression overlapping image_shape
  = Some detections.
Proof.
  apply (detect_intro detector class_logit box_regression overlapping
           image_shape
           (Tensor gpu (replicate 2 (replicate 2 (replicate 4 0%Q))))
           [(overlapping, Tensor gpu [1%Z; 1%Z], Tensor gpu [1 # 2; 1 # 2])]);
    vm_compute; reflexivity.
Qed.

(** C5 on the two overlapping proposals. *)
Lemma detect_scores_above_threshold_witness :
  process_box_filters ∧
  ∃ boxes labels scores,
    detections !! "boxes" = Some (VBox boxes) ∧
    detections !! "labels" = Some (VInt labels) ∧
    detections !! "scores" = Some (VFloat scores) ∧
    length (data boxes) = length (data scores) ∧
    length (data labels) = length (data scores) ∧
    ∀ s, s ∈ data scores → geb s (score_thresh detector) = true.
Proof.
  split; [apply reference_process_box_filters|].
  exact (detect_scores_above_threshold detector class_logit box_regression
           overlapping image_shape detections reference_process_box_filters
           example_detect).
Defined.

(** C6, as amended, on the two overlapping proposals. *)
Lemma detect_nms_per_class_witness :
  nms_contract Reference.iou Reference.gt ∧
  (0 ≤ num_detections detector)%Z ∧
  ∃ boxes labels,
    detections !! "boxes" = Some (VBox boxes) ∧
    detections !! "labels" = Some (VInt labels) ∧
    separated_per_class
      (apart Reference.iou Reference.gt (nms_thresh detector))
      (data boxes) (data labels) ∧
    ∀ c, (Z.of_nat (count_class c (data labels)) ≤ num_detections detector)%Z.
Proof.
  split; [apply reference_nms_contract|].
  split; [done|].
  destruct (detect_nms_per_class (Ext := reference) Reference.iou Reference.gt
              detector class_logit box_regression overlapping image_shape
              detections reference_nms_contract example_detect)
    as (boxes & labels & Hb & Hl & Hsep & Hcount).
  exists boxes, labels. split_and!; [exact Hb|exact Hl|exact Hsep|].
  apply Hcount. done.
Defined.

Lemma example_all_but_last :
  detect negative_cap (zero_logit 2) (zero_delta 2) proposal image_shape
  = Some all_but_last.
Proof.
  apply (detect_intro negative_cap (zero_logit 2) (zero_delta 2) proposal
           image_shape
           (Tensor gpu (replicate 2 (replicate 2 (replicate 4 0%Q))))
           [(Tensor gpu [(0%Q, 0%Q, 10%Q, 8%Q)], Tensor gpu [1%Z],
             Tensor gpu [1 # 2])]);
    vm_compute; reflexivity.
Qed.

(** C6 as stated fails twice.  At the boundary: the greedy suppression
    drops a box whose IoU with a kept box is greater than the threshold, so
    two boxes whose IoU equals the threshold are both kept.  For a negative
    [num_detections]: the slice [[:-1]] keeps all but the last box, here
    one detection of class 1, which is more than [num_detections]. *)
Lemma detect_nms_boundary_counterexample :
  nms_contract Reference.iou Reference.gt ∧
  (∃ result boxes labels,
    detect detector class_logit box_regression overlapping image_shape
    = Some result ∧
    result !! "boxes" = Some (VBox boxes) ∧
    result !! "labels" = Some (VInt labels) ∧
    ¬ separated_per_class (apart Reference.iou geb (nms_thresh detector))
        (data boxes) (data labels)) ∧
  (∃ result labels,
    detect negative_cap (zero_logit 2) (zero_delta 2) proposal image_shape
    = Some result ∧
    result !! "labels" = Some (VInt labels) ∧
    num_detections negative_cap = (-1)%Z ∧
    count_class 1 (data labels) = 1 ∧
    ¬ (Z.of_nat (count_class 1 (data labels))
       ≤ num_detections negative_cap)%Z).
Proof.
  split; [apply reference_nms_contract|]. split.
  - exists detections, overlapping, (Tensor gpu [1%Z; 1%Z]).
    split_and!; [apply example_detect|reflexivity|reflexivity|].
    intros H.
    specialize (H 0 1 (0%Q, 0%Q, 2%Q, 2%Q) (0%Q, 0%Q, 2%Q, 1%Q) 1%Z
                  ltac:(done) eq_refl eq_refl eq_refl eq_refl).
    vm_compute in H. discriminate H.
  - exists all_but_last, (Tensor gpu [1%Z]).
    split_and!; [apply example_all_but_last|reflexivity|reflexivity
                |reflexivity|].
    vm_compute. intros H. by apply H.
Qed.

Lemma example_select_no_positive :
  select_training_samples trainer_no_positive proposal target
  = Some (negative_only, Tensor gpu [0%Z], Tensor gpu [0%Z], Tensor gpu []).
Proof. vm_compute. reflexivity. Qed.

(** C7 on a training run that draws no positive sample. *)
Lemma forward_train_no_positive_witness :
  train_mode trainer_no_positive = true ∧
  select_training_samples trainer_no_positive proposal target
  = Some (negative_only, Tensor gpu [0%Z], Tensor gpu [0%Z], Tensor gpu []) ∧
  ∃ losses calls,
    run (forward trainer_no_positive tt proposal image_shape target)
    = Some ((∅, losses), calls) ∧
    losses !! "roi_mask_loss" = Some (torch_tensor 0) ∧
    item (torch_tensor 0) = SInt 0 ∧
    calls = [CallBoxRoiPool; CallBoxPredictor; CallDetectionLoss] ∧
    existsb mask_call calls = false.
Proof.
  split; [reflexivity|]. split; [apply example_select_no_positive|].
  exact (forward_train_no_positive trainer_no_positive tt proposal image_shape
           target Reference.mask_roi_pool Reference.mask_predictor
           negative_only (Tensor gpu [0%Z]) (Tensor gpu [0%Z]) (Tensor gpu [])
           negative_only (zero_logit 1) (zero_delta 1) (loss 1) (loss 0)
           eq_refl eq_refl eq_refl example_select_no_positive eq_refl eq_refl
           eq_refl eq_refl).
Defined.

Lemma example_no_detection :
  detect quiet_detector (zero_logit 2) (zero_delta 2) proposal image_shape
  = Some no_detection.
Proof.
  apply (detect_intro quiet_detector (zero_logit 2) (zero_delta 2) proposal
           image_shape
           (Tensor gpu (replicate 2 (replicate 2 (replicate 4 0%Q))))
           [(Tensor gpu [], Tensor gpu [], Tensor gpu [])]);
    vm_compute; reflexivity.
Qed.

(** C8 on an inference run without detection. *)
Lemma forward_inference_no_detection_witness :
  train_mode quiet_detector = false ∧
  detect quiet_detector (zero_logit 2) (zero_delta 2) proposal image_shape
  = Some no_detection ∧
  ∃ masks calls,
    run (forward quiet_detector tt proposal image_shape ∅)
    = Some ((<["masks" := VMask masks]> no_detection, ∅), calls) ∧
    shape3 masks = (0, 28, 28) ∧
    calls = [CallBoxRoiPool; CallBoxPredictor] ∧
    existsb mask_call calls = false.
Proof.
  split; [reflexivity|]. split; [apply example_no_detection|].
  exact (forward_inference_no_detection quiet_detector tt proposal image_shape
           ∅ Reference.mask_roi_pool Reference.mask_predictor proposal
           (zero_logit 2) (zero_delta 2) no_detection (Tensor gpu [])
           eq_refl eq_refl eq_refl eq_refl eq_refl example_no_detection
           eq_refl eq_refl).
Defined.

(** C9 on the example: the target of the example against no target. *)
Lemma forward_inference_ignores_target_witness :
  train_mode detector = false ∧
  forward detector tt proposal image_shape target
  = forward detector tt proposal image_shape ∅.
Proof.
  split; [reflexivity|].
  exact (forward_inference_ignores_target detector tt proposal image_shape
           target ∅ eq_refl).
Defined.

Lemma example_forward_as_constructed :
  run (forward (set_mask_branch detector None None) tt overlapping image_shape ∅)
  = Some ((detections, ∅), [CallBoxRoiPool; CallBoxPredictor]).
Proof.
  apply (forward_inference_mask_off (set_mask_branch detector None None) tt
           overlapping image_shape ∅ overlapping
           class_logit box_regression detections);
    [reflexivity|by left|reflexivity|reflexivity|apply example_detect].
Qed.

(** C10 on a detector as [__init__] builds it. *)
Lemma forward_as_constructed_witness :
  mask_roi_pool detector = None ∧
  mask_predictor detector = None ∧
  set_mask_branch detector None None = detector ∧
  detections !! "masks" = None ∧
  (∅ : gmap string (tensor0 Q)) !! "roi_mask_loss" = None ∧
  existsb mask_call [CallBoxRoiPool; CallBoxPredictor] = false.
Proof.
  exact (forward_as_constructed Reference.box_roi_pool Reference.box_predictor
           (1 # 2) (1 # 2) 4%Z (1 # 2) weights (1 # 20) (1 # 2) 100%Z false
           None None tt overlapping image_shape ∅ detections ∅
           [CallBoxRoiPool; CallBoxPredictor] (or_introl eq_refl)
           example_forward_as_constructed).
Defined.

(** C4 fails on the code. With the inputs on [cuda:0] and torch's default
    device the cpu, the tensors [detect] builds are on [cuda:0], but the
    empty [masks] of an image without detection and the zero
    [roi_mask_loss] of an image without positive sample are on the cpu:
    [torch.empty] and [torch.tensor] are called without [device=]. *)
Theorem mask_placeholders_on_default_device :
  default_device = cpu ∧
  device proposal = cuda 0 ∧
  (∃ result calls,
     run (forward quiet_detector tt proposal image_shape ∅)
     = Some ((result, ∅), calls) ∧
     value_device <$> result !! "boxes" = Some (cuda 0) ∧
     value_device <$> result !! "labels" = Some (cuda 0) ∧
     value_device <$> result !! "scores" = Some (cuda 0) ∧
     value_device <$> result !! "masks" = Some cpu) ∧
  (∃ losses calls,
     run (forward trainer_no_positive tt proposal image_shape target)
     = Some ((∅, losses), calls) ∧
     device0 <$> losses !! "roi_classifier_loss" = Some (cuda 0) ∧
     device0 <$> losses !! "roi_box_loss" = Some (cuda 0) ∧
     device0 <$> losses !! "roi_mask_loss" = Some cpu).
Proof.
  split_and!; [reflexivity|reflexivity|..].
  - eexists _, _. split.
    + apply (forward_inference_early_return quiet_detector tt proposal
               image_shape ∅ Reference.mask_roi_pool Reference.mask_predictor
               proposal (zero_logit 2) (zero_delta 2) no_detection
               (Tensor gpu []));
        [reflexivity..|apply example_no_detection|reflexivity|reflexivity].
    + split_and!; reflexivity.
  - eexists _, _. split.
    + apply (forward_train_early_return trainer_no_positive tt proposal
               image_shape target Reference.mask_roi_pool
               Reference.mask_predictor negative_only (Tensor gpu [0%Z])
               (Tensor gpu [0%Z]) (Tensor gpu []) negative_only (zero_logit 1)
               (zero_delta 1) (loss 1) (loss 0));
        [reflexivity|reflexivity|reflexivity|apply example_select_no_positive
        |reflexivity..].
    + split_and!; reflexivity.
Qed.

End OnExamples.

(** * Further properties *)

(** ** Detection: labels, order and the inputs [detect] refuses *)

Section DetectEdges.
Context `{Ext : Externals}.

(** The labels of the classes [s, s + n), concatenated in that order, lie
    in that range and never decrease. *)
Lemma labels_of_classes (s n : nat)
    (pc : list (tensor Box * tensor Z * tensor F)) :
  Forall2 (λ c r, data r.1.2 = replicate (length (data r.1.1)) (Z.of_nat c))
          (seq s n) pc →
  (∀ x, x ∈ concat (data <$> ((λ r, r.1.2) <$> pc)) →
        (Z.of_nat s ≤ x < Z.of_nat (s + n))%Z) ∧
  (∀ p q a b, p ≤ q →
     concat (data <$> ((λ r, r.1.2) <$> pc)) !! p = Some a →
     concat (data <$> ((λ r, r.1.2) <$> pc)) !! q = Some b →
     (a ≤ b)%Z).
Proof.
  revert s pc. induction n as [|n IH]; intros s pc HF; simpl in HF.
  - apply Forall2_nil_inv_l in HF as ->. csimpl. split.
    + intros x Hx. by inversion Hx.
    + intros p q a b _ Hp. by rewrite lookup_nil in Hp.
  - apply Forall2_cons_inv_l in HF as ([[bx lb] sc] & pc' & Hl & HF & ->).
    destruct (IH (S s) pc' HF) as [IH1 IH2]. csimpl in *. rewrite Hl.
    split.
    + intros x [Hx|Hx]%elem_of_app.
      * apply elem_of_replicate in Hx as [-> _]. lia.
      * apply IH1 in Hx. lia.
    + intros p q a b Hpq Hp Hq.
      destruct (decide (q < length (data bx))) as [Hq'|Hq'].
      * rewrite lookup_app_l in Hp by (rewrite length_replicate; lia).
        rewrite lookup_app_l in Hq by (rewrite length_replicate; lia).
        apply lookup_replicate in Hp as [-> _].
        apply lookup_replicate in Hq as [-> _]. lia.
      * rewrite lookup_app_r in Hq by (rewrite length_replicate; lia).
        rewrite length_replicate in Hq.
        destruct (decide (p < length (data bx))) as [Hp'|Hp'].
        -- rewrite lookup_app_l in Hp by (rewrite length_replicate; lia).
           apply lookup_replicate in Hp as [-> _].
           apply list_elem_of_lookup_2, IH1 in Hq. lia.
        -- rewrite lookup_app_r in Hp by (rewrite length_replicate; lia).
           rewrite length_replicate in Hp.
           eapply (IH2 (p - length (data bx)) (q - length (data bx)));
             [lia|done..].
Qed.

Lemma detect_per_class_labels self dev pred_score box_regression proposal
    image_shape cs pc :
  mapM (detect_class self dev pred_score box_regression proposal image_shape)
       cs = Some pc →
  Forall2 (λ c r, data r.1.2 = replicate (length (data r.1.1)) (Z.of_nat c))
          cs pc.
Proof.
  intros H. apply mapM_Some in H.
  eapply Forall2_impl; [exact H|].
  intros c [[bx lb] sc] Hc.
  by apply detect_class_parallel in Hc as (? & _ & _).
Qed.

(** X1. Every label [detect] returns is a foreground class: at least 1 and
    below [num_classes]; the background class 0 never occurs. *)
Theorem detect_labels_foreground self class_logit box_regression proposal
    image_shape result :
  detect self class_logit box_regression proposal image_shape = Some result →
  ∃ labels,
    result !! "labels" = Some (VInt labels) ∧
    ∀ x, x ∈ data labels → (1 ≤ x < Z.of_nat (ncols class_logit))%Z.
Proof.
  intros H.
  apply detect_inv in H as (br & pc & b & l & s & _ & Hpc & _ & El & _ & ->).
  exists l. split; [apply detect_lookup_labels|].
  apply cat_list_data in El. rewrite El.
  apply detect_per_class_labels, labels_of_classes in Hpc as [H1 _].
  intros x Hx. apply H1 in Hx. lia.
Qed.

(** X2. The detections are grouped by class, in increasing order of the
    class: along the result the labels never decrease. *)
Theorem detect_labels_ascending self class_logit box_regression proposal
    image_shape result :
  detect self class_logit box_regression proposal image_shape = Some result →
  ∃ labels,
    result !! "labels" = Some (VInt labels) ∧
    ∀ p q a b, p ≤ q →
      data labels !! p = Some a → data labels !! q = Some b → (a ≤ b)%Z.
Proof.
  intros H.
  apply detect_inv in H as (br & pc & b & l & s & _ & Hpc & _ & El & _ & ->).
  exists l. split; [apply detect_lookup_labels|].
  apply cat_list_data in El. rewrite El.
  by apply detect_per_class_labels, labels_of_classes in Hpc as [_ H2].
Qed.

(** X3. With no foreground class ([class_logit] has at most one column)
    [detect] raises: the loop appends nothing and [torch.cat] refuses an
    empty list. *)
Theorem detect_without_foreground_class self class_logit box_regression
    proposal image_shape :
  ncols class_logit ≤ 1 →
  detect self class_logit box_regression proposal image_shape = None.
Proof.
  intros H. unfold detect.
  destruct (reshape_N_4 _ _) as [br|]; [|done]. simpl.
  replace (ncols class_logit - 1) with 0 by lia. done.
Qed.

(** X4. With no proposal ([class_logit] has no row) [detect] raises:
    [reshape(0, -1, 4)] cannot infer the middle extent. *)
Theorem detect_without_proposal self class_logit box_regression proposal
    image_shape :
  rows class_logit = [] →
  detect self class_logit box_regression proposal image_shape = None.
Proof. intros H. unfold detect, reshape_N_4. by rewrite H. Qed.

(** X5. [detect] raises unless it is given one proposal per row of
    [class_logit]: the boolean mask built from the scores of the first
    foreground class does not fit [proposal]. *)
Theorem detect_proposal_count_mismatch self class_logit box_regression
    proposal image_shape :
  length (data proposal) ≠ length (rows class_logit) →
  detect self class_logit box_regression proposal image_shape = None.
Proof.
  intros Hne. unfold detect.
  destruct (reshape_N_4 _ _) as [br|]; [|done]. simpl.
  destruct (ncols class_logit - 1) as [|n]; [done|].
  assert (detect_class self (device2 class_logit)
            (Tensor2 (device2 class_logit) (ncols class_logit)
                     (softmax <$> rows class_logit))
            br proposal image_shape 1 = None) as Hc;
    [|rewrite (mapM_None_2 _ (seq 1 (S n))); [reflexivity|by left]].
  unfold detect_class. simpl.
  destruct (column (softmax <$> rows class_logit) 1) as [score|] eqn:E;
    [|done].
  simpl. destruct (column (data br) 1) as [delta|]; [|done]. simpl.
  apply length_mapM in E. rewrite length_fmap in E.
  assert (masked_select proposal ((λ s, geb s (score_thresh self)) <$> score)
          = None) as ->; [|reflexivity].
  unfold masked_select. rewrite decide_False; [reflexivity|].
  rewrite length_fmap. lia.
Qed.

End DetectEdges.

(** ** Sample selection: bounds and what the mask branch receives *)

Section SelectMore.
Context `{Ext : Externals}.

Lemma getitem_Some_valid {A} (l : list A) i x :
  getitem l i = Some x → valid_index (length l) i.
Proof.
  unfold getitem, normalize_index, valid_index. intros H.
  repeat case_decide; simpl in H; try done; lia.
Qed.

Lemma index_select_Some_valid {A} (t : tensor A) idx r :
  index_select t idx = Some r →
  Forall (valid_index (length (data t))) (data idx).
Proof.
  unfold index_select. intros H. case_decide; [|done].
  destruct (mapM _ _) as [k|] eqn:E; [|done].
  apply mapM_Some in E.
  clear H. induction E as [|i x il xl Hi _ IH]; constructor; [|done].
  by eapply getitem_Some_valid.
Qed.

(** X7. If a sample is matched to a ground-truth index for which [target]
    holds no label (fewer labels than boxes), [select_training_samples]
    raises. *)
Theorem select_unlabelled_match self proposal target
    gt_box gt_label matched_all pos_idx neg_idx i g :
  matching self proposal target gt_box gt_label matched_all pos_idx neg_idx →
  i ∈ data pos_idx ++ data neg_idx →
  getitem (data matched_all) i = Some g →
  ¬ valid_index (length (data gt_label)) g →
  select_training_samples self proposal target = None.
Proof.
  intros Hm Hi Hg Hbad.
  destruct (select_training_samples self proposal target)
    as [[[[p m] l] r]|] eqn:E; [|done].
  apply select_training_samples_inv in E
    as (g' & l' & m' & p' & n' & mp & gp & pp & lb & Hm' & _ & _ & _ & _
        & _ & E11 & E12 & _).
  destruct (matching_functional _ _ _ _ _ _ _ _ _ _ _ _ _ Hm Hm')
    as (<- & <- & <- & <- & <-).
  apply index_select_Some_valid in E12.
  destruct Hbad. eapply Forall_forall; [exact E12|].
  apply list_elem_of_lookup_1 in Hi as [k Hk].
  apply (list_elem_of_lookup_2 _ k).
  rewrite (index_select_lookup _ _ _ k E11). simpl. by rewrite Hk.
Qed.

(** X8. Every sampled proposal is one of the proposals given or one of
    the ground-truth boxes, and every label is 0 or one of the ground-truth
    labels. *)
Theorem select_samples_from_candidates self proposal target gt_box gt_label
    p m l r :
  item_box target "boxes" = Some gt_box →
  item_int target "labels" = Some gt_label →
  select_training_samples self proposal target = Some (p, m, l, r) →
  (∀ b, b ∈ data p → b ∈ data proposal ∨ b ∈ data gt_box) ∧
  (∀ x, x ∈ data l → x = 0%Z ∨ x ∈ data gt_label).
Proof.
  intros Hb Hl H.
  apply select_training_samples_inv in H
    as (g' & l' & m' & p' & n' & mp & gp & pp & lb
        & (iou & pnl & Hb' & Hl' & _) & _ & _ & _ & _ & E10 & _ & E12 & ->).
  simplify_eq. split.
  - intros b Hin. eapply index_select_elem_of in Hin; [|exact E10].
    simpl in Hin. by apply elem_of_app in Hin.
  - simpl. unfold setitem_from. intros x [Hx|Hx]%elem_of_app.
    + right. apply elem_of_take in Hx as (k & Hx & _).
      apply list_elem_of_lookup_2 in Hx.
      by eapply index_select_elem_of.
    + left. by apply elem_of_replicate in Hx as [-> _].
Qed.

(** X9. What [forward] hands to the mask branch in training mode
    ([proposal[:num_pos]], [matched_idx[:num_pos]] and [label[:num_pos]]
    with [num_pos] the number of regression targets) are the positive
    proposals, their matched indices and the ground-truth labels at those
    indices: the background fill does not reach them. *)
Theorem mask_prefix_is_positive_samples self proposal target
    gt_box gt_label matched_all pos_idx neg_idx p m l r :
  encode_rowwise (box_coder self) →
  matching self proposal target gt_box gt_label matched_all pos_idx neg_idx →
  select_training_samples self proposal target = Some (p, m, l, r) →
  ∃ positive matched_pos label_pos,
    index_select (cat proposal gt_box) pos_idx = Some positive ∧
    index_select matched_all pos_idx = Some matched_pos ∧
    index_select gt_label matched_pos = Some label_pos ∧
    take (length (data r)) (data p) = data positive ∧
    take (length (data r)) (data m) = data matched_pos ∧
    take (length (data r)) (data l) = data label_pos.
Proof.
  intros Henc Hm H.
  destruct (select_training_samples_devices _ _ _ _ _ _ _ _ Hm (mk_is_Some _ _ H))
    as [_ Hd].
  apply select_training_samples_inv in H
    as (g' & l' & m' & p' & n' & mp & gp & pp & lb & Hm' & E6 & E7 & E8
        & E9 & E10 & E11 & E12 & ->).
  destruct (matching_functional _ _ _ _ _ _ _ _ _ _ _ _ _ Hm Hm')
    as (<- & <- & <- & <- & <-).
  apply Henc in E9.
  2: { by rewrite (index_select_length _ _ _ E7),
         (index_select_length _ _ _ E6), (index_select_length _ _ _ E8). }
  rewrite E9, (index_select_length _ _ _ E8).
  destruct (index_select_device _ _ _ E6) as [D6 _].
  destruct (index_select_device _ _ _ E11) as [D11 _].
  apply (index_select_cat _ _ _ _ Hd) in E10 as (ra & rb & Ha & Hb & Hp).
  apply (index_select_cat _ _ _ _ Hd) in E11 as (ma & mb & Hma & Hmb & Hmm).
  simplify_eq.
  assert (m = cat mp (Tensor (device mp) (data mb))) as Em.
  { destruct m as [dm xm]. unfold cat. simpl in *. congruence. }
  rewrite Em in E12.
  apply (index_select_cat gt_label mp (Tensor (device mp) (data mb)) _ eq_refl)
    in E12 as (la & lb' & Hla & _ & Hll).
  exists pp, mp, la. split_and!; try done.
  - rewrite Hp, <- (index_select_length _ _ _ E8). by rewrite take_app_length.
  - rewrite Hmm, <- (index_select_length _ _ _ E6). by rewrite take_app_length.
  - simpl. unfold setitem_from.
    assert (length (data la) = length (data pos_idx)) as Hlen.
    { by rewrite (index_select_length _ _ _ Hla),
        (index_select_length _ _ _ E6). }
    rewrite Hll, <- Hlen, take_app_length. by rewrite take_app_length.
Qed.

(** X19. The device conditions of a returning call are necessary: when the
    proposals and the ground-truth boxes, or the two index sets of the
    sampler, are on two devices, or an index tensor is neither on the cpu
    nor on the device of the tensor it indexes (labels left on the cpu
    with the matcher answering on an accelerator, say),
    [select_training_samples] raises. *)
Theorem select_device_mismatch self proposal target
    gt_box gt_label matched_all pos_idx neg_idx :
  matching self proposal target gt_box gt_label matched_all pos_idx neg_idx →
  device proposal ≠ device gt_box ∨
  device pos_idx ≠ device neg_idx ∨
  ¬ index_device_ok (device proposal) (device pos_idx) ∨
  ¬ index_device_ok (device matched_all) (device pos_idx) ∨
  ¬ index_device_ok (device gt_box) (device matched_all) ∨
  ¬ index_device_ok (device gt_label) (device matched_all) →
  select_training_samples self proposal target = None.
Proof.
  intros Hm Hbad.
  destruct (select_training_samples self proposal target)
    as [[[[p m] l] r]|] eqn:E; [|done].
  destruct (select_training_samples_devices _ _ _ _ _ _ _ _ Hm (mk_is_Some _ _ E))
    as [Dc Di].
  apply select_training_samples_inv in E
    as (g' & l' & m' & p' & n' & mp & gp & pp & lb & Hm' & E6 & E7 & E8 & _
        & _ & E11 & E12 & _).
  destruct (matching_functional _ _ _ _ _ _ _ _ _ _ _ _ _ Hm Hm')
    as (<- & <- & <- & <- & <-).
  apply index_select_device in E6 as [D6 O6], E7 as [_ O7], E8 as [_ O8],
    E11 as [D11 _], E12 as [_ O12].
  rewrite D6 in O7. rewrite D11 in O12. simpl in O8.
  destruct Hbad as [?|[?|[?|[?|[?|?]]]]]; done.
Qed.

End SelectMore.

(** ** Forward: what a run returns and calls, by mode *)

Section ForwardMore.
Context `{Ext : Externals}.

Ltac run_steps :=
  repeat match goal with
    | H : run (mret _) = Some _ |- _ => apply run_ret in H as [? ?]
    | H : run (lift _) = Some _ |- _ => apply run_lift in H as [? ?]
    | H : run (invoke _ _) = Some _ |- _ => apply run_invoke in H as [? ?]
    | H : run (_ ≫= _) = Some _ |- _ =>
        apply run_bind in H as (? & ? & ? & ? & ? & ?)
    | H : run (match ?x with (_, _) => _ end) = Some _ |- _ => destruct x
    | H : run (if decide ?P then _ else _) = Some _ |- _ =>
        destruct (decide P)
    | H : Some _ = Some _ |- _ => apply (inj Some) in H
    | H : (_, _) = (_, _) |- _ => apply pair_equal_spec in H as [? ?]
    | _ => progress subst
    end.

(** The three ways a training run returns. *)
Lemma forward_train_inv self feature proposal image_shape target
    result losses calls :
  train_mode self = true →
  run (forward self feature proposal image_shape target)
  = Some ((result, losses), calls) →
  ∃ p m l r classifier_loss box_reg_loss,
    select_training_samples self proposal target = Some (p, m, l, r) ∧
    result = ∅ ∧
    ((¬ mask_branch_on self ∧
      losses = <["roi_box_loss" := box_reg_loss]>
                 (<["roi_classifier_loss" := classifier_loss]> ∅) ∧
      calls = [CallBoxRoiPool; CallBoxPredictor; CallDetectionLoss]) ∨
     (mask_branch_on self ∧
      length (take (length (data r)) (data p)) = 0 ∧
      losses = <["roi_mask_loss" := torch_tensor 0]>
                 (<["roi_box_loss" := box_reg_loss]>
                    (<["roi_classifier_loss" := classifier_loss]> ∅)) ∧
      calls = [CallBoxRoiPool; CallBoxPredictor; CallDetectionLoss]) ∨
     (mask_branch_on self ∧
      length (take (length (data r)) (data p)) ≠ 0 ∧
      is_Some (item_mask target "masks") ∧
      (∃ m_loss,
         losses = <["roi_mask_loss" := m_loss]>
                    (<["roi_box_loss" := box_reg_loss]>
                       (<["roi_classifier_loss" := classifier_loss]> ∅))) ∧
      calls = [CallBoxRoiPool; CallBoxPredictor; CallDetectionLoss;
               CallMaskRoiPool; CallMaskPredictor; CallMaskLoss])).
Proof.
  intros Ht H. unfold forward in H. rewrite Ht in H. run_steps.
  repeat match goal with
  | H : select_training_samples _ _ _ = Some ?s |- _ =>
      is_var s; destruct s as [[[? ?] ?] ?]; run_steps
  end.
  match goal with
  | H : select_training_samples _ _ _ = Some (?p, ?m, ?l, ?r) |- _ =>
      exists p, m, l, r
  end.
  unfold mask_branch_on.
  destruct (mask_roi_pool self) as [pool|] eqn:Ep;
    [destruct (mask_predictor self) as [predictor|] eqn:Eq|];
    run_steps; eexists _, _; (split; [done|]); (split; [done|]).
  - right; left. simpl in *. split_and!; [by eexists|by eexists|done..].
  - right; right. simpl in *.
    split_and!; [by eexists|by eexists|done|by eexists|by eexists|done].
  - left. split_and!; [|done..]. by intros [_ [? ?]].
  - left. split_and!; [|done..]. by intros [[? ?] _].
Qed.

(** The three ways an inference run returns. *)
Lemma forward_inference_inv self feature proposal image_shape target
    result losses calls :
  train_mode self = false →
  run (forward self feature proposal image_shape target)
  = Some ((result, losses), calls) →
  ∃ box_feature class_logit box_regression detected boxes labels scores,
    box_roi_pool self feature proposal image_shape = Some box_feature ∧
    box_predictor self box_feature = Some (class_logit, box_regression) ∧
    detect self class_logit box_regression proposal image_shape
    = Some detected ∧
    detected = <["scores" := VFloat scores]>
                 (<["labels" := VInt labels]> (<["boxes" := VBox boxes]> ∅)) ∧
    losses = ∅ ∧
    ((¬ mask_branch_on self ∧ result = detected ∧
      calls = [CallBoxRoiPool; CallBoxPredictor]) ∨
     (mask_branch_on self ∧ length (data boxes) = 0 ∧
      result = <["masks" := VMask (torch_empty 28 28)]> detected ∧
      calls = [CallBoxRoiPool; CallBoxPredictor]) ∨
     (length (data boxes) ≠ 0 ∧
      (∃ pool predictor mask_feature mask_logit picked,
         mask_roi_pool self = Some pool ∧
         mask_predictor self = Some predictor ∧
         pool feature boxes image_shape = Some mask_feature ∧
         predictor mask_feature = Some mask_logit ∧
         index_pairs mask_logit
           (arange (length (data labels)) (device labels)) labels
         = Some picked ∧
         result = <["masks" :=
                     VMask (Tensor3 (device3 picked) (height picked)
                              (width picked) (sigmoid <$> maps picked))]>
                    detected) ∧
      calls = [CallBoxRoiPool; CallBoxPredictor; CallMaskRoiPool;
               CallMaskPredictor])).
Proof.
  intros Ht H. unfold forward in H. rewrite Ht in H. run_steps.
  match goal with
  | H : detect _ _ _ _ _ = Some _ |- _ =>
      pose proof H as Hd;
      apply detect_inv in H as (br & pc & b & l & s & _ & _ & _ & _ & _ & ->)
  end.
  unfold mask_branch_on.
  destruct (mask_roi_pool self) as [pool|] eqn:Ep;
    [destruct (mask_predictor self) as [predictor|] eqn:Eq|]; run_steps;
    repeat match goal with
      | H : item_box _ "boxes" = Some _ |- _ =>
          unfold item_box in H; rewrite detect_lookup_boxes in H;
          simpl in H; apply (inj Some) in H; subst
      | H : item_int _ "labels" = Some _ |- _ =>
          unfold item_int in H; rewrite detect_lookup_labels in H;
          simpl in H; apply (inj Some) in H; subst
      end;
    match goal with
    | H : detect _ _ _ _ _
          = Some (<[_ := VFloat ?s]> (<[_ := VInt ?l]> (<[_ := VBox ?b]> ∅)))
      |- _ => eexists _, _, _, _, b, l, s
    end; (split_and!; [done..|]).
  - right; left. split_and!; [by eexists|by eexists|done..].
  - right; right. split_and!; [done| |done].
    by eexists _, _, _, _, _.
  - left. split_and!; [|done..]. by intros [_ [? ?]].
  - left. split_and!; [|done..]. by intros [[? ?] _].
Qed.

(** X10. A training run returns an empty result, and losses under
    [roi_classifier_loss] and [roi_box_loss], plus [roi_mask_loss] exactly
    when the mask branch is on. *)
Theorem forward_train_outputs self feature proposal image_shape target
    result losses calls :
  train_mode self = true →
  run (forward self feature proposal image_shape target)
  = Some ((result, losses), calls) →
  result = ∅ ∧
  ∀ k, is_Some (losses !! k) ↔
       k = "roi_classifier_loss" ∨ k = "roi_box_loss" ∨
       (k = "roi_mask_loss" ∧ mask_branch_on self).
Proof.
  intros Ht H.
  apply forward_train_inv in H
    as (p & m & l & r & cl & bl & _ & -> & Hcase); [|done].
  split; [done|]. intros k.
  destruct Hcase as [(Hoff & -> & _)|[(Hon & _ & -> & _)
                                     |(Hon & _ & _ & [ml ->] & _)]];
    rewrite !lookup_insert_is_Some', lookup_empty, is_Some_alt;
    intuition (subst; auto; discriminate).
Qed.

(** X11. An inference run returns no loss, and a result under [boxes],
    [labels] and [scores], plus [masks] exactly when the mask branch is
    on. *)
Theorem forward_inference_outputs self feature proposal image_shape target
    result losses calls :
  train_mode self = false →
  run (forward self feature proposal image_shape target)
  = Some ((result, losses), calls) →
  losses = ∅ ∧
  ∀ k, is_Some (result !! k) ↔
       k = "boxes" ∨ k = "labels" ∨ k = "scores" ∨
       (k = "masks" ∧ mask_branch_on self).
Proof.
  intros Ht H.
  apply forward_inference_inv in H
    as (bf & cl & br & d & b & l & s & _ & _ & _ & -> & -> & Hcase); [|done].
  split; [done|]. intros k.
  destruct Hcase as [(Hoff & -> & _)|[(Hon & _ & -> & _)
    |(_ & (pool & pred & mf & ml & pk & Hp & Hq & _ & _ & _ & ->) & _)]].
  - rewrite !lookup_insert_is_Some', lookup_empty, is_Some_alt.
    intuition (subst; auto; discriminate).
  - rewrite !lookup_insert_is_Some', lookup_empty, is_Some_alt.
    intuition (subst; auto; discriminate).
  - assert (mask_branch_on self) as Hon
      by (unfold mask_branch_on; rewrite Hp, Hq; by split; eexists).
    rewrite !lookup_insert_is_Some', lookup_empty, is_Some_alt.
    intuition (subst; auto; discriminate).
Qed.

(** X12. The modules a returning run has called, in order: the box pooler
    and the box predictor first; the detection loss in training mode only;
    then either no mask module or the mask pooler and the mask predictor,
    followed in training mode by the mask loss. *)
Theorem forward_calls self feature proposal image_shape target
    result losses calls :
  run (forward self feature proposal image_shape target)
  = Some ((result, losses), calls) →
  if train_mode self
  then calls = [CallBoxRoiPool; CallBoxPredictor; CallDetectionLoss] ∨
       (mask_branch_on self ∧
        calls = [CallBoxRoiPool; CallBoxPredictor; CallDetectionLoss;
                 CallMaskRoiPool; CallMaskPredictor; CallMaskLoss])
  else calls = [CallBoxRoiPool; CallBoxPredictor] ∨
       (mask_branch_on self ∧
        calls = [CallBoxRoiPool; CallBoxPredictor; CallMaskRoiPool;
                 CallMaskPredictor]).
Proof.
  intros H. destruct (train_mode self) eqn:Ht.
  - apply forward_train_inv in H
      as (p & m & l & r & cl & bl & _ & _ & Hcase); [|done].
    destruct Hcase as [(_ & _ & ->)|[(_ & _ & _ & ->)|(Hon & _ & _ & _ & ->)]];
      auto.
  - apply forward_inference_inv in H
      as (bf & cl & br & d & b & l & s & _ & _ & _ & _ & _ & Hcase); [|done].
    destruct Hcase as [(_ & _ & ->)|[(_ & _ & _ & ->)
      |(_ & (pool & pred & mf & ml & pk & Hp & Hq & _) & ->)]];
      [by left|by left|right].
    split; [|done]. unfold mask_branch_on. rewrite Hp, Hq. by split; eexists.
Qed.

Lemma getitem_Z_of_nat {A} (l : list A) (k : nat) :
  getitem l (Z.of_nat k) = l !! k.
Proof.
  unfold getitem, normalize_index.
  case_decide; simpl; [by rewrite Nat2Z.id|].
  case_decide; [lia|]. simpl. symmetry. apply lookup_ge_None_2. lia.
Qed.

(** [mask_logit[arange(n), label]] picks, for each [k], channel [label[k]]
    of row [k]. *)
Lemma index_pairs_arange {A} (t : tensor4 A) d label r :
  index_pairs t (arange (length (data label)) d) label = Some r →
  length (maps r) = length (data label) ∧
  ∀ k lab, data label !! k = Some lab →
           maps r !! k = maps4 t !! k ≫= λ row, getitem row lab.
Proof.
  unfold index_pairs, arange. simpl. intros H.
  case_decide as Hlen; [|done].
  destruct (mapM _ _) as [ms|] eqn:E; [|done]. simpl in H. simplify_eq.
  simpl. split.
  - apply length_mapM in E. rewrite <- E, length_zip, length_fmap, length_seq.
    lia.
  - intros k lab Hk.
    rewrite (mapM_lookup _ _ _ k E).
    assert (zip (Z.of_nat <$> seq 0 (length (data label))) (data label) !! k
            = Some (Z.of_nat k, lab)) as ->.
    { apply lookup_zip_with_Some. exists (Z.of_nat k), lab.
      split_and!; [done| |done].
      rewrite list_lookup_fmap, lookup_seq_lt by (by eapply lookup_lt_Some).
      done. }
    simpl. by rewrite getitem_Z_of_nat.
Qed.

(** The boxes and the labels [detect] returns are equally many. *)
Lemma detect_boxes_labels_length self class_logit box_regression proposal
    image_shape boxes labels scores :
  detect self class_logit box_regression proposal image_shape
  = Some (<["scores" := VFloat scores]>
            (<["labels" := VInt labels]> (<["boxes" := VBox boxes]> ∅))) →
  length (data labels) = length (data boxes).
Proof.
  intros H.
  apply detect_inv in H as (br & pc & b & l & s & _ & Hpc & Eb & El & _ & Heq).
  assert (boxes = b ∧ labels = l) as [-> ->].
  { pose proof (detect_lookup_boxes boxes labels scores) as H1.
    pose proof (detect_lookup_labels boxes labels scores) as H2.
    rewrite Heq, detect_lookup_boxes in H1.
    rewrite Heq, detect_lookup_labels in H2. by simplify_eq. }
  apply cat_list_data in Eb, El. rewrite Eb, El.
  apply mapM_Some in Hpc. clear -Hpc.
  induction Hpc as [|c [[bx lb] sc] cs pc Hc _ IH]; [done|].
  apply detect_class_parallel in Hc as (Hl & _ & _).
  csimpl in *. rewrite !length_app, IH, Hl, length_replicate. done.
Qed.

(** X13. With the mask branch on, an inference run returns one mask per
    detection, whether there are detections or not. *)
Theorem forward_inference_one_mask_per_detection self feature proposal
    image_shape target result losses calls :
  train_mode self = false →
  mask_branch_on self →
  run (forward self feature proposal image_shape target)
  = Some ((result, losses), calls) →
  ∃ boxes masks,
    result !! "boxes" = Some (VBox boxes) ∧
    result !! "masks" = Some (VMask masks) ∧
    length (maps masks) = length (data boxes).
Proof.
  intros Ht Hon H.
  apply forward_inference_inv in H
    as (bf & cl & br & d & b & l & s & _ & _ & Hd & -> & _ & Hcase); [|done].
  destruct Hcase as [(Hoff & _)|[(_ & Hlen & -> & _)
    |(_ & (pool & pred & mf & ml & pk & _ & _ & _ & _ & Hpk & ->) & _)]];
    [done|..].
  - exists b, (torch_empty 28 28).
    split_and!; [by simplify_map_eq|by simplify_map_eq|by rewrite Hlen].
  - eexists b, _. split_and!; [by simplify_map_eq|by simplify_map_eq|].
    apply index_pairs_arange in Hpk as [Hpk _]. simpl.
    rewrite length_fmap, Hpk. by eapply detect_boxes_labels_length.
Qed.

(** X14. With at least one detection, the mask of detection [k] is the
    sigmoid of the channel of its label in row [k] of what the mask
    predictor answers on the pooled detection boxes. *)
Theorem forward_inference_mask_of_label self feature proposal image_shape
    target pool predictor result losses calls boxes :
  train_mode self = false →
  mask_roi_pool self = Some pool →
  mask_predictor self = Some predictor →
  run (forward self feature proposal image_shape target)
  = Some ((result, losses), calls) →
  result !! "boxes" = Some (VBox boxes) →
  length (data boxes) ≠ 0 →
  ∃ labels masks mask_feature mask_logit,
    result !! "labels" = Some (VInt labels) ∧
    result !! "masks" = Some (VMask masks) ∧
    pool feature boxes image_shape = Some mask_feature ∧
    predictor mask_feature = Some mask_logit ∧
    ∀ k lab, data labels !! k = Some lab →
      maps masks !! k
      = sigmoid <$> (maps4 mask_logit !! k ≫= λ row, getitem row lab).
Proof.
  intros Ht Hp Hq H Hb Hne.
  apply forward_inference_inv in H
    as (bf & cl & br & d & b & l & s & _ & _ & Hd & -> & _ & Hcase); [|done].
  destruct Hcase as [(Hoff & _)|[(_ & Hlen & -> & _)
    |(_ & (pool' & pred' & mf & ml & pk & Hp' & Hq' & Hmf & Hml & Hpk & ->)
      & _)]].
  - destruct Hoff. unfold mask_branch_on. rewrite Hp, Hq. by split; eexists.
  - by simplify_map_eq.
  - simplify_map_eq.
    eexists l, _, mf, ml. split_and!; [done..|].
    intros k lab Hk.
    apply index_pairs_arange in Hpk as [_ Hpk]. simpl.
    by rewrite list_lookup_fmap, (Hpk k lab Hk).
Qed.

(** X15. Of [target], [forward] reads the entries [boxes], [labels] and
    [masks] only. *)
Theorem forward_target_keys self feature proposal image_shape target target' :
  target !! "boxes" = target' !! "boxes" →
  target !! "labels" = target' !! "labels" →
  target !! "masks" = target' !! "masks" →
  forward self feature proposal image_shape target
  = forward self feature proposal image_shape target'.
Proof.
  intros Hb Hl Hm.
  unfold forward, select_training_samples, item_box, item_int, item_mask.
  by rewrite Hb, Hl, Hm.
Qed.

(** X16. In training mode a target without usable [boxes] or [labels]
    makes [forward] raise. *)
Theorem forward_train_missing_ground_truth self feature proposal image_shape
    target :
  train_mode self = true →
  item_box target "boxes" = None ∨ item_int target "labels" = None →
  run (forward self feature proposal image_shape target) = None.
Proof.
  intros Ht H.
  destruct (run (forward self feature proposal image_shape target))
    as [[[result losses] calls]|] eqn:E; [|done].
  apply forward_train_inv in E
    as (p & m & l & r & cl & bl & Hs & _); [|done].
  apply select_training_samples_inv in Hs
    as (g' & l' & m' & p' & n' & mp & gp & pp & lb
        & (iou & pnl & Hb' & Hl' & _) & _).
  destruct H; congruence.
Qed.

(** X17. [target['masks']] is needed only when there is a positive sample:
    with the mask branch on, a non-empty positive prefix and no [masks]
    entry, a training run raises. *)
Theorem forward_train_missing_masks self feature proposal image_shape
    target p m l r :
  train_mode self = true →
  mask_branch_on self →
  select_training_samples self proposal target = Some (p, m, l, r) →
  length (take (length (data r)) (data p)) ≠ 0 →
  item_mask target "masks" = None →
  run (forward self feature proposal image_shape target) = None.
Proof.
  intros Ht Hon Hs Hne Hm.
  destruct (run (forward self feature proposal image_shape target))
    as [[[result losses] calls]|] eqn:E; [|done].
  apply forward_train_inv in E
    as (p' & m' & l' & r' & cl & bl & Hs' & _ & Hcase); [|done].
  rewrite Hs in Hs'. simplify_eq.
  destruct Hcase as [(Hoff & _)|[(_ & Hz & _)|(_ & _ & [gm Hgm] & _)]];
    [done|done|congruence].
Qed.

End ForwardMore.

(** ** The further properties on the example inputs *)

Section ForwardRuns.
Context `{Ext : Externals}.

(** An inference run through the mask branch. *)
Lemma forward_inference_masks_return self feature proposal image_shape target
    pool predictor box_feature class_logit box_regression detected boxes
    labels mask_feature mask_logit picked :
  train_mode self = false →
  mask_roi_pool self = Some pool →
  mask_predictor self = Some predictor →
  box_roi_pool self feature proposal image_shape = Some box_feature →
  box_predictor self box_feature = Some (class_logit, box_regression) →
  detect self class_logit box_regression proposal image_shape
  = Some detected →
  detected !! "boxes" = Some (VBox boxes) →
  length (data boxes) ≠ 0 →
  pool feature boxes image_shape = Some mask_feature →
  predictor mask_feature = Some mask_logit →
  detected !! "labels" = Some (VInt labels) →
  index_pairs mask_logit (arange (length (data labels)) (device labels)) labels
  = Some picked →
  run (forward self feature proposal image_shape target)
  = Some ((<["masks" :=
              VMask (Tensor3 (device3 picked) (height picked) (width picked)
                       (sigmoid <$> maps picked))]> detected, ∅),
          [CallBoxRoiPool; CallBoxPredictor; CallMaskRoiPool;
           CallMaskPredictor]).
Proof.
  intros Ht Hp Hq Hb Hc Hd Hbx Hne Hmf Hml Hlb Hpk.
  unfold forward. rewrite Ht, Hp, Hq.
  cbn. rewrite Hb. cbn. rewrite Hc. cbn. rewrite Hd. cbn.
  unfold item_box. rewrite Hbx. cbn.
  rewrite decide_False by done. cbn. rewrite Hmf. cbn. rewrite Hml. cbn.
  unfold item_int. rewrite Hlb. cbn. rewrite Hpk. cbn. reflexivity.
Qed.

End ForwardRuns.

Section OnExamplesMore.
#[local] Existing Instance reference.
Import Examples.

(** X1 on the two overlapping proposals. *)
Lemma detect_labels_foreground_witness :
  ∃ labels,
    detections !! "labels" = Some (VInt labels) ∧
    ∀ x, x ∈ data labels → (1 ≤ x < Z.of_nat (ncols class_logit))%Z.
Proof.
  exact (detect_labels_foreground detector class_logit box_regression
           overlapping image_shape detections example_detect).
Defined.

(** X2 on the two overlapping proposals. *)
Lemma detect_labels_ascending_witness :
  ∃ labels,
    detections !! "labels" = Some (VInt labels) ∧
    ∀ p q a b, p ≤ q →
      data labels !! p = Some a → data labels !! q = Some b → (a ≤ b)%Z.
Proof.
  exact (detect_labels_ascending detector class_logit box_regression
           overlapping image_shape detections example_detect).
Defined.

(** X3 on logits with the background column only. *)
Lemma detect_without_foreground_class_witness :
  ncols one_column ≤ 1 ∧
  detect detector one_column box_regression overlapping image_shape = None.
Proof.
  split; [reflexivity|].
  exact (detect_without_foreground_class detector one_column box_regression
           overlapping image_shape (le_n 1)).
Defined.

(** X4 on logits without a row. *)
Lemma detect_without_proposal_witness :
  rows no_row = [] ∧
  detect detector no_row (Tensor gpu []) (Tensor gpu []) image_shape = None.
Proof.
  split; [reflexivity|].
  exact (detect_without_proposal detector no_row (Tensor gpu [])
           (Tensor gpu []) image_shape eq_refl).
Defined.

(** X5 on one proposal for two rows of logits. *)
Lemma detect_proposal_count_mismatch_witness :
  length (data negative_only) ≠ length (rows class_logit) ∧
  detect detector class_logit box_regression negative_only image_shape = None.
Proof.
  split; [discriminate|].
  exact (detect_proposal_count_mismatch detector class_logit box_regression
           negative_only image_shape ltac:(discriminate)).
Defined.

(** X6 on the two overlapping proposals. *)
Lemma detect_labels_device_witness :
  ∃ labels, detections !! "labels" = Some (VInt labels) ∧
            device labels = device2 class_logit.
Proof.
  exact (detect_labels_device detector class_logit box_regression overlapping
           image_shape detections example_detect).
Defined.

Lemma example_matching_short :
  matching trainer near_second one_label_short two_boxes gt_label
           matched_second (Tensor gpu [0%Z; 1%Z]) (Tensor gpu []).
Proof.
  exists (Tensor2 gpu 3 [[0%Q; 1%Q; 0%Q]; [4 # 5; 0%Q; 1%Q]]),
         (Tensor gpu [1%Z; 1%Z; 1%Z]).
  split_and!; vm_compute; reflexivity.
Qed.

(** X7 on a target with two boxes and one label. *)
Lemma select_unlabelled_match_witness :
  getitem (data matched_second) 0 = Some 1%Z ∧
  ¬ valid_index (length (data gt_label)) 1 ∧
  select_training_samples trainer near_second one_label_short = None.
Proof.
  split; [reflexivity|].
  split; [unfold valid_index; simpl; lia|].
  exact (select_unlabelled_match trainer near_second one_label_short two_boxes
           gt_label matched_second (Tensor gpu [0%Z; 1%Z]) (Tensor gpu [])
           0%Z 1%Z example_matching_short
           ltac:(simpl; apply list_elem_of_here) eq_refl
           ltac:(unfold valid_index; simpl; lia)).
Defined.

Lemma example_matching_cpu_labels :
  matching trainer proposal labels_on_cpu gt_box cpu_label matched_all
           pos_idx neg_idx.
Proof.
  exists iou_matrix, pos_neg_label.
  split_and!; vm_compute; reflexivity.
Qed.

(** X19 on the example with its labels left on the cpu. *)
Lemma select_device_mismatch_witness :
  ¬ index_device_ok (device cpu_label) (device matched_all) ∧
  select_training_samples trainer proposal labels_on_cpu = None.
Proof.
  assert (¬ index_device_ok (device cpu_label) (device matched_all)) as Hbad.
  { intros [H|H]; discriminate H. }
  split; [exact Hbad|].
  exact (select_device_mismatch trainer proposal labels_on_cpu gt_box
           cpu_label matched_all pos_idx neg_idx example_matching_cpu_labels
           (or_intror (or_intror (or_intror (or_intror (or_intror Hbad)))))).
Defined.

(** X8 on the example. *)
Lemma select_samples_from_candidates_witness :
  (∀ b, b ∈ data sampled_proposal → b ∈ data proposal ∨ b ∈ data gt_box) ∧
  (∀ x, x ∈ data sampled_label → x = 0%Z ∨ x ∈ data gt_label).
Proof.
  exact (select_samples_from_candidates trainer proposal target gt_box
           gt_label sampled_proposal sampled_matched_idx sampled_label
           regression_target eq_refl eq_refl example_select).
Defined.

(** X9 on the example. *)
Lemma mask_prefix_is_positive_samples_witness :
  ∃ positive matched_pos label_pos,
    index_select (cat proposal gt_box) pos_idx = Some positive ∧
    index_select matched_all pos_idx = Some matched_pos ∧
    index_select gt_label matched_pos = Some label_pos ∧
    take (length (data regression_target)) (data sampled_proposal)
    = data positive ∧
    take (length (data regression_target)) (data sampled_matched_idx)
    = data matched_pos ∧
    take (length (data regression_target)) (data sampled_label)
    = data label_pos.
Proof.
  exact (mask_prefix_is_positive_samples trainer proposal target gt_box
           gt_label matched_all pos_idx neg_idx sampled_proposal
           sampled_matched_idx sampled_label regression_target
           (reference_encode_rowwise _) example_matching example_select).
Defined.

Lemma example_forward_no_positive :
  run (forward trainer_no_positive tt proposal image_shape target)
  = Some ((∅, <["roi_mask_loss" := torch_tensor 0]>
                (<["roi_box_loss" := loss 0]>
                   (<["roi_classifier_loss" := loss 1]> ∅))),
          [CallBoxRoiPool; CallBoxPredictor; CallDetectionLoss]).
Proof.
  apply (forward_train_early_return trainer_no_positive tt proposal
           image_shape target Reference.mask_roi_pool
           Reference.mask_predictor negative_only (Tensor gpu [0%Z])
           (Tensor gpu [0%Z]) (Tensor gpu []) negative_only (zero_logit 1)
           (zero_delta 1) (loss 1) (loss 0));
    [reflexivity|reflexivity|reflexivity|apply example_select_no_positive
    |reflexivity..].
Qed.

(** X10 on a training run that draws no positive sample. *)
Lemma forward_train_outputs_witness :
  (∅ : gmap string value) = ∅ ∧
  ∀ k, is_Some ((<["roi_mask_loss" := torch_tensor 0]>
                   (<["roi_box_loss" := loss 0]>
                      (<["roi_classifier_loss" := loss 1]> ∅))
                 : gmap string (tensor0 Q)) !! k) ↔
       k = "roi_classifier_loss" ∨ k = "roi_box_loss" ∨
       (k = "roi_mask_loss" ∧ mask_branch_on trainer_no_positive).
Proof.
  exact (forward_train_outputs trainer_no_positive tt proposal image_shape
           target _ _ _ eq_refl example_forward_no_positive).
Defined.

(** X11 on a detector as [__init__] builds it. *)
Lemma forward_inference_outputs_witness :
  (∅ : gmap string (tensor0 Q)) = ∅ ∧
  ∀ k, is_Some (detections !! k) ↔
       k = "boxes" ∨ k = "labels" ∨ k = "scores" ∨
       (k = "masks" ∧ mask_branch_on (set_mask_branch detector None None)).
Proof.
  exact (forward_inference_outputs (set_mask_branch detector None None) tt
           overlapping image_shape ∅ _ _ _ eq_refl
           example_forward_as_constructed).
Defined.

Lemma example_found :
  detect (with_masks detector) (zero_logit 2) (zero_delta 2) proposal
         image_shape = Some found.
Proof.
  apply (detect_intro (with_masks detector) (zero_logit 2) (zero_delta 2)
           proposal image_shape
           (Tensor gpu (replicate 2 (replicate 2 (replicate 4 0%Q))))
           [(proposal, Tensor gpu [1%Z; 1%Z], Tensor gpu [1 # 2; 1 # 2])]);
    vm_compute; reflexivity.
Qed.

Lemma example_forward_masks :
  run (forward (with_masks detector) tt proposal image_shape ∅)
  = Some ((<["masks" := VMask half_masks]> found, ∅),
          [CallBoxRoiPool; CallBoxPredictor; CallMaskRoiPool;
           CallMaskPredictor]).
Proof.
  apply (forward_inference_masks_return (with_masks detector) tt proposal
           image_shape ∅ Reference.mask_roi_pool Reference.mask_predictor
           proposal (zero_logit 2) (zero_delta 2) found proposal
           (Tensor gpu [1%Z; 1%Z]) proposal zero_mask_logit picked);
    [reflexivity..|apply example_found|reflexivity|discriminate
    |reflexivity|reflexivity|reflexivity|vm_compute; reflexivity].
Qed.

(** X12 on an inference run with two detections and the mask branch on. *)
Lemma forward_calls_witness :
  if train_mode (with_masks detector)
  then [CallBoxRoiPool; CallBoxPredictor; CallMaskRoiPool; CallMaskPredictor]
       = [CallBoxRoiPool; CallBoxPredictor; CallDetectionLoss] ∨
       (mask_branch_on (with_masks detector) ∧
        [CallBoxRoiPool; CallBoxPredictor; CallMaskRoiPool; CallMaskPredictor]
        = [CallBoxRoiPool; CallBoxPredictor; CallDetectionLoss;
           CallMaskRoiPool; CallMaskPredictor; CallMaskLoss])
  else [CallBoxRoiPool; CallBoxPredictor; CallMaskRoiPool; CallMaskPredictor]
       = [CallBoxRoiPool; CallBoxPredictor] ∨
       (mask_branch_on (with_masks detector) ∧
        [CallBoxRoiPool; CallBoxPredictor; CallMaskRoiPool; CallMaskPredictor]
        = [CallBoxRoiPool; CallBoxPredictor; CallMaskRoiPool;
           CallMaskPredictor]).
Proof.
  exact (forward_calls (with_masks detector) tt proposal image_shape ∅ _ _ _
           example_forward_masks).
Defined.

Lemma example_mask_branch_on : mask_branch_on (with_masks detector).
Proof. split; by eexists. Qed.

(** X13 on an inference run with two detections. *)
Lemma forward_inference_one_mask_per_detection_witness :
  ∃ boxes masks,
    (<["masks" := VMask half_masks]> found : gmap string value) !! "boxes"
    = Some (VBox boxes) ∧
    (<["masks" := VMask half_masks]> found : gmap string value) !! "masks"
    = Some (VMask masks) ∧
    length (maps masks) = length (data boxes).
Proof.
  exact (forward_inference_one_mask_per_detection (with_masks detector) tt
           proposal image_shape ∅ _ _ _ eq_refl example_mask_branch_on
           example_forward_masks).
Defined.

(** X14 on an inference run with two detections. *)
Lemma forward_inference_mask_of_label_witness :
  ∃ labels masks mask_feature mask_logit,
    (<["masks" := VMask half_masks]> found : gmap string value) !! "labels"
    = Some (VInt labels) ∧
    (<["masks" := VMask half_masks]> found : gmap string value) !! "masks"
    = Some (VMask masks) ∧
    Reference.mask_roi_pool tt proposal image_shape = Some mask_feature ∧
    Reference.mask_predictor mask_feature = Some mask_logit ∧
    ∀ k lab, data labels !! k = Some lab →
      maps masks !! k
      = sigmoid <$> (maps4 mask_logit !! k ≫= λ row, getitem row lab).
Proof.
  exact (forward_inference_mask_of_label (with_masks detector) tt proposal
           image_shape ∅ Reference.mask_roi_pool Reference.mask_predictor
           _ _ _ proposal eq_refl eq_refl eq_refl example_forward_masks
           eq_refl ltac:(discriminate)).
Defined.

(** X15 on the example target and the same target with an [area] entry. *)
Lemma forward_target_keys_witness :
  forward trainer tt proposal image_shape target
  = forward trainer tt proposal image_shape target_with_area.
Proof.
  exact (forward_target_keys trainer tt proposal image_shape target
           target_with_area eq_refl eq_refl eq_refl).
Defined.

(** X16 on an empty target. *)
Lemma forward_train_missing_ground_truth_witness :
  train_mode trainer = true ∧
  item_box (∅ : gmap string value) "boxes" = None ∧
  run (forward trainer tt proposal image_shape ∅) = None.
Proof.
  split; [reflexivity|]. split; [reflexivity|].
  exact (forward_train_missing_ground_truth trainer tt proposal image_shape ∅
           eq_refl (or_introl eq_refl)).
Defined.

Lemma example_select_with_masks :
  select_training_samples (with_masks trainer) proposal target
  = Some (sampled_proposal, sampled_matched_idx, sampled_label,
          regression_target).
Proof. vm_compute. reflexivity. Qed.

Lemma example_trainer_mask_branch_on : mask_branch_on (with_masks trainer).
Proof. split; by eexists. Qed.

(** X17 on the example target, which has no [masks] entry. *)
Lemma forward_train_missing_masks_witness :
  length (take (length (data regression_target)) (data sampled_proposal)) ≠ 0 ∧
  item_mask target "masks" = None ∧
  run (forward (with_masks trainer) tt proposal image_shape target) = None.
Proof.
  split; [discriminate|]. split; [reflexivity|].
  exact (forward_train_missing_masks (with_masks trainer) tt proposal
           image_shape target sampled_proposal sampled_matched_idx
           sampled_label regression_target eq_refl
           example_trainer_mask_branch_on example_select_with_masks
           ltac:(discriminate) eq_refl).
Defined.

(** The coder of the example accepts equally long arguments. *)
Lemma example_encode_returns (g p : tensor Reference.box) :
  length (data g) = length (data p) →
  is_Some (encode (box_coder trainer) g p).
Proof.
  intros Hlen. simpl. unfold Reference.rowwise.
  rewrite decide_True by done.
  destruct (mapM _ _) as [k|] eqn:E; [by eexists|].
  apply mapM_None in E. apply Exists_exists in E as ([a b] & _ & E).
  discriminate E.
Qed.

(** X18 on the example. *)
Lemma select_training_samples_returns_witness :
  is_Some (select_training_samples trainer proposal target).
Proof.
  refine (select_training_samples_returns trainer proposal target gt_box
            gt_label matched_all pos_idx neg_idx example_matching
            eq_refl eq_refl (or_intror eq_refl) (or_intror eq_refl)
            (or_intror eq_refl) (or_intror eq_refl) _ _ _ _
            example_encode_returns);
    repeat constructor; unfold valid_index; simpl; lia.
Defined.

End OnExamplesMore.
